(** * Tacotron (models/tacotron.py): loss, optimizer wiring and decode bounds

    The model class [Tacotron] builds a TensorFlow graph in three stages:
    [initialize], [add_loss] and [add_optimizer].  This development embeds
    the three methods as functions on staged records and proves the
    properties of the loss terms, of the learning-rate schedule, of gradient
    clipping and of the length of the decoded spectrogram.

    Conventions.
    - Tensor entries are real numbers ([R]): float32 rounding is abstracted,
      every tensor operation is read in exact arithmetic.
    - Hyper-parameters that Python handles as numbers before they reach
      TensorFlow are integers ([nat], [Z]) or rationals ([Q]).
    - An operation that raises, or whose value is not a real number (the
      mean of an empty tensor is NaN), yields [None]. *)

From Stdlib Require Import String Ascii Bool Arith.
From Stdlib Require Import List ZArith QArith Qreals Reals Lra Lia.
Import ListNotations.

Set Implicit Arguments.

Close Scope Q_scope.
Close Scope R_scope.

(** ** Rank-3 tensors, batch major, as nested lists *)

Module Tensor.

Abbreviation vec := (list R).
Abbreviation mat := (list (list R)).
Abbreviation tensor3 := (list (list (list R))).

Fixpoint zip_with {A B C : Type} (f : A -> B -> C) (a : list A) (b : list B)
  : list C :=
  match a, b with
  | x :: a', y :: b' => f x y :: zip_with f a' b'
  | _, _ => []
  end.

Definition map3 (f : R -> R) (x : tensor3) : tensor3 := map (map (map f)) x.

Definition zip3 (f : R -> R -> R) (a b : tensor3) : tensor3 :=
  zip_with (zip_with (zip_with f)) a b.

Definition flatten3 (x : tensor3) : list R := concat (concat x).

Definition rsum (l : list R) : R := fold_right Rplus 0%R l.

Definition num_elements (x : tensor3) : nat := length (flatten3 x).

(** [x] has static shape [[N; T; F]]. *)
Definition has_shape (N T F : nat) (x : tensor3) : Prop :=
  length x = N /\
  Forall (fun m : mat => length m = T /\ Forall (fun r : vec => length r = F) m) x.

Definition has_shapeb (N T F : nat) (x : tensor3) : bool :=
  (length x =? N) &&
  forallb (fun m : mat =>
             (length m =? T) && forallb (fun r : vec => length r =? F) m) x.

Definition same_shape1 (a b : vec) : bool := length a =? length b.

Definition same_shape2 (a b : mat) : bool :=
  (length a =? length b) &&
  forallb (fun p => same_shape1 (fst p) (snd p)) (combine a b).

Definition same_shape3 (a b : tensor3) : bool :=
  (length a =? length b) &&
  forallb (fun p => same_shape2 (fst p) (snd p)) (combine a b).

(** Entry [x[n, t, f]]; [0] outside the tensor. *)
Definition get (x : tensor3) (i : nat * nat * nat) : R :=
  let '(n, t, f) := i in nth f (nth t (nth n x []) []) 0%R.

(** The index triples of a tensor of shape [[N; T; F]], in row-major order. *)
Definition entries (N T F : nat) : list (nat * nat * nat) :=
  flat_map (fun n => flat_map (fun t => map (fun f => (n, t, f)) (seq 0 F))
                              (seq 0 T))
           (seq 0 N).

End Tensor.

Import Tensor.

(** ** TensorFlow 1.x operations used by the model (documented semantics) *)

Module TF.

(** Python slice [l[0:n]]: a negative [n] counts from the end. *)
Definition slice_upto {A : Type} (n : Z) (l : list A) : list A :=
  if (0 <=? n)%Z then firstn (Z.to_nat n) l
  else firstn (length l - Z.to_nat (- n)) l.

(** [x[:, :, 0:n]]. *)
Definition slice_last_axis (n : Z) (x : tensor3) : tensor3 :=
  map (map (slice_upto n)) x.

(** [tf.reduce_mean] over all axes; NaN on an empty tensor. *)
Definition reduce_mean (x : tensor3) : option R :=
  match num_elements x with
  | O => None
  | S _ => Some (rsum (flatten3 x) / INR (num_elements x))%R
  end.

Definition tf_abs (x : tensor3) : tensor3 := map3 Rabs x.

(** [a - b] on tensors of one shape (broadcasting between different shapes
    is not used by the model and is rejected here). *)
Definition tf_sub (a b : tensor3) : option tensor3 :=
  if same_shape3 a b then Some (zip3 Rminus a b) else None.

(** [tf.losses.mean_squared_error(labels, predictions)] with the default
    weights [1.0] and reduction [SUM_BY_NONZERO_WEIGHTS]: the shapes must be
    compatible, the squared differences are summed and divided by the number
    of entries, with the "safe" division that gives [0] for no entries. *)
Definition mean_squared_error (labels predictions : tensor3) : option R :=
  if same_shape3 predictions labels then
    let losses := zip3 (fun p l => Rsqr (p - l)) predictions labels in
    Some (match num_elements losses with
          | O => 0
          | S _ => rsum (flatten3 losses) / INR (num_elements losses)
          end)%R
  else None.

(** [tf.nn.l2_loss(t) = sum(t ** 2) / 2]. *)
Definition l2_loss (v : list R) : R := (rsum (map Rsqr v) / 2)%R.

(** [tf.add_n] raises [ValueError] on an empty list. *)
Definition add_n (l : list R) : option R :=
  match l with
  | [] => None
  | _ :: _ => Some (rsum l)
  end.

End TF.

(** ** Hyper-parameters *)

Record HParams := {
  embedding_dim : nat;
  encoder_conv_layers : nat;
  encoder_conv_width : nat;
  encoder_conv_channels : nat;
  encoder_lstm_units : nat;
  attention_depth : nat;
  decoder_lstm_units : nat;
  num_mels : nat;
  outputs_per_step : nat;
  postnet_conv_layers : nat;
  postnet_conv_width : nat;
  postnet_conv_channels : nat;
  expand_conv_layers : nat;
  expand_conv_width : nat;
  expand_conv_channels : nat;
  expand_lstm_units : nat;
  num_freq : nat;
  sample_rate : Z;
  max_iters : nat;
  symmetric_mels : bool;
  max_abs_value : Q;
  initial_learning_rate : Q;
  learning_rate_decay_halflife : Z;
  adam_beta1 : Q;
  adam_beta2 : Q
}.

(** ** Python helpers *)

(** [int(x)] on a float: truncation toward zero. *)
Definition py_int (q : Q) : Z := Z.quot (Qnum q) (Z.pos (Qden q)).

(** [needle in s] on strings. *)
Fixpoint contains (needle s : string) : bool :=
  String.prefix needle s ||
  match s with
  | EmptyString => false
  | String _ s' => contains needle s'
  end.

(** A trainable variable: its graph name and its entries. *)
Record Variable_ := {
  name : string;
  value : list R
}.

(** ** The model object after [initialize] *)

Record Initialized := {
  inputs : list (list Z);
  input_lengths : list Z;
  alignments : tensor3;
  decoder_outputs : tensor3;
  mel_outputs : tensor3;
  linear_outputs : tensor3;
  linear_targets : option tensor3;
  mel_targets : option tensor3
}.

(** ** [add_loss] *)

Record Losses := {
  decoder_loss : R;
  mel_loss : R;
  linear_loss : R;
  regularization_loss : R;
  loss : R
}.

Section AddLoss.

Variable hp : HParams.

(** [n_priority_freq = int(2000 / (hp.sample_rate * 0.5) * hp.num_freq)];
    the float division raises [ZeroDivisionError] on a zero divisor. *)
Definition n_priority_freq : option Z :=
  let nyquist := (inject_Z (sample_rate hp) * (1 # 2))%Q in
  if Qeq_bool nyquist 0 then None
  else Some (py_int (2000 / nyquist * inject_Z (Z.of_nat (num_freq hp)))%Q).

(** [reg_weight_scaler = 1. / (2 * hp.max_abs_value) if hp.symmetric_mels
     else 1. / (hp.max_abs_value)]. *)
Definition reg_weight_scaler : option Q :=
  let d := if symmetric_mels hp then (2 * max_abs_value hp)%Q
           else max_abs_value hp in
  if Qeq_bool d 0 then None else Some (1 / d)%Q.

(** [reg_weight = 1e-6 * reg_weight_scaler]. *)
Definition reg_weight : option Q :=
  option_map (fun s => ((1 # 1000000) * s)%Q) reg_weight_scaler.

Definition is_bias (v : Variable_) : bool :=
  contains "bias" (name v) || contains "Bias" (name v).

(** [0.5 * tf.reduce_mean(l1) + 0.5 * tf.reduce_mean(l1[:,:,0:n_priority_freq])]
    with [l1 = tf.abs(linear_targets - linear_outputs)]. *)
Definition compute_linear_loss (targets outputs : tensor3) : option R :=
  match TF.tf_sub targets outputs with
  | None => None
  | Some d =>
    let l1 := TF.tf_abs d in
    match n_priority_freq with
    | None => None
    | Some n =>
      match TF.reduce_mean l1, TF.reduce_mean (TF.slice_last_axis n l1) with
      | Some m_all, Some m_low => Some (0.5 * m_all + 0.5 * m_low)%R
      | _, _ => None
      end
    end
  end.

(** [tf.add_n([tf.nn.l2_loss(v) for v in all_vars
      if not('bias' in v.name or 'Bias' in v.name)]) * reg_weight]. *)
Definition compute_regularization_loss (all_vars : list Variable_) : option R :=
  match reg_weight with
  | None => None
  | Some w =>
    match TF.add_n (map (fun v => TF.l2_loss (value v))
                        (filter (fun v => negb (is_bias v)) all_vars)) with
    | None => None
    | Some s => Some (s * Q2R w)%R
    end
  end.

(** [all_vars] is [tf.trainable_variables()], the graph's collection. *)
Definition add_loss (all_vars : list Variable_) (self : Initialized)
  : option Losses :=
  match mel_targets self, linear_targets self with
  | Some mt, Some lt =>
    match TF.mean_squared_error mt (decoder_outputs self),
          TF.mean_squared_error mt (mel_outputs self),
          compute_linear_loss lt (linear_outputs self),
          compute_regularization_loss all_vars with
    | Some dl, Some ml, Some ll, Some rl =>
      Some {| decoder_loss := dl;
              mel_loss := ml;
              linear_loss := ll;
              regularization_loss := rl;
              loss := (dl + ml + ll + rl)%R |}
    | _, _, _, _ => None
    end
  | _, _ => None
  end.

End AddLoss.

(** ** Index-wise reading of the tensor operations *)

(** The tensor of shape [[N; T; F]] whose entry at [i] is [g i]. *)
Definition tabulate (N T F : nat) (g : nat * nat * nat -> R) : tensor3 :=
  map (fun n => map (fun t => map (fun f => g (n, t, f)) (seq 0 F)) (seq 0 T))
      (seq 0 N).

(** The mean of [g] over the entries listed in [I]. *)
Definition mean_over (I : list (nat * nat * nat)) (g : nat * nat * nat -> R)
  : R :=
  (rsum (map g I) / INR (length I))%R.

(** The entries that lie in the first [k] bins of the last axis. *)
Definition low_bins (k : Z) (I : list (nat * nat * nat))
  : list (nat * nat * nat) :=
  filter (fun i => (Z.of_nat (snd i) <? k)%Z) I.

Definition abs_err (a b : tensor3) (i : nat * nat * nat) : R :=
  Rabs (get a i - get b i).

Definition sq_err (a b : tensor3) (i : nat * nat * nat) : R :=
  Rsqr (get a i - get b i).


(** ** More TensorFlow operations: reshape, addition, the decode loop *)

Module TFGraph.

(** [a + b] on tensors of one shape. *)
Definition tf_add (a b : tensor3) : option tensor3 :=
  if same_shape3 a b then Some (zip3 Rplus a b) else None.

(** [tf.reshape(x, [d0, -1, d2])]: the entries keep their row-major order,
    the middle dimension is inferred from the number of entries; it is an
    error when [d0 * d2] is zero or does not divide that number. *)
Definition reshape_infer (x : tensor3) (d0 d2 : nat) : option tensor3 :=
  let flat := flatten3 x in
  let total := length flat in
  if (d0 * d2 =? 0) then None
  else if (total mod (d0 * d2) =? 0) then
    let d1 := total / (d0 * d2) in
    Some (tabulate d0 d1 d2
            (fun i => let '(n, t, f) := i in
                      nth ((n * d1 + t) * d2 + f) flat 0%R))
  else None.

(** [tf.transpose(x, [1, 2, 0])] of a tensor of shape [[S; N; T]] given as
    the list of its [S] slices: the result has shape [[N; T; S]]. *)
Definition transpose_120 (N T : nat) (x : tensor3) : tensor3 :=
  map (fun n => map (fun t => map (fun m : mat => nth t (nth n m []) 0%R) x)
                    (seq 0 T))
      (seq 0 N).

(** The helper interface of [tf.contrib.seq2seq]: [initialize()] gives the
    initial [finished] flags and the first inputs, [next_inputs(time,
    outputs)] the flags and the inputs after a step. *)
Record Helper := {
  helper_initialize : list bool * mat;
  helper_next_inputs : nat -> mat -> list bool * mat
}.

Section DynamicDecode.

Variable State : Type.

(** [BasicDecoder(cell, helper, initial_state)]. *)
Record BasicDecoder := {
  cell : mat -> State -> mat * State;
  helper : Helper;
  initial_state : State
}.

Variable decoder : BasicDecoder.
Variable maximum_iterations : nat.

(** The body of the [while_loop] of [dynamic_decode], iterated while some
    batch item is unfinished; [fuel] is the [maximum_iterations] given to
    the loop itself.  [outputs_ta] collects the step outputs, last first. *)
Fixpoint decode_loop (fuel time : nat) (inputs : mat) (state : State)
         (finished : list bool) (outputs_ta : list mat)
  : list mat * State :=
  match fuel with
  | O => (rev outputs_ta, state)
  | S fuel' =>
    if forallb (fun b => b) finished then (rev outputs_ta, state)
    else
      let '(cell_outputs, cell_state) := cell decoder inputs state in
      let '(decoder_finished, next_inputs) :=
        helper_next_inputs (helper decoder) time cell_outputs in
      let next_finished :=
        map (fun b => b || (maximum_iterations <=? time + 1))
            (zip_with orb decoder_finished finished) in
      decode_loop fuel' (S time) next_inputs cell_state next_finished
                  (cell_outputs :: outputs_ta)
  end.

(** The outputs of all steps, time major, and the final state. *)
Definition dynamic_decode_steps : list mat * State :=
  let '(initial_finished, initial_inputs) :=
    helper_initialize (helper decoder) in
  let initial_finished :=
    map (fun b => b || (maximum_iterations <=? 0)) initial_finished in
  decode_loop maximum_iterations 0 initial_inputs (initial_state decoder)
              initial_finished [].

(** [dynamic_decode] returns the stacked outputs batch major:
    shape [[batch_size; steps; depth]]. *)
Definition dynamic_decode (batch_size : nat) : tensor3 * State :=
  let '(outs, final_state) := dynamic_decode_steps in
  (map (fun n => map (fun o : mat => nth n o []) outs) (seq 0 batch_size),
   final_state).

End DynamicDecode.

(** [tf.train.exponential_decay(learning_rate, global_step, decay_steps,
    decay_rate)] without staircase:
    [learning_rate * decay_rate ^ (global_step / decay_steps)]; the quotient
    is not a real number when [decay_steps] is zero. *)
Definition exponential_decay (learning_rate : R) (global_step decay_steps : Z)
           (decay_rate : R) : option R :=
  if (decay_steps =? 0)%Z then None
  else Some (learning_rate
             * Rpower decay_rate (IZR global_step / IZR decay_steps))%R.

(** [tf.global_norm(t_list)]: [sqrt(sum(l2norm(t)**2 for t in t_list))],
    where the entries that are [None] are ignored. *)
Definition sum_squares (t_list : list (option vec)) : R :=
  rsum (map (fun t => match t with
                      | Some v => rsum (map Rsqr v)
                      | None => 0%R
                      end) t_list).

Definition global_norm (t_list : list (option vec)) : R :=
  sqrt (sum_squares t_list).

(** [tf.clip_by_global_norm(t_list, clip_norm)]: every tensor becomes
    [t * clip_norm / max(global_norm, clip_norm)]; [None] stays [None].
    The second component is the global norm. *)
Definition clip_by_global_norm (t_list : list (option vec)) (clip_norm : R)
  : list (option vec) * R :=
  let gn := global_norm t_list in
  (map (option_map (map (fun x => x * clip_norm / Rmax gn clip_norm)%R))
       t_list,
   gn).

End TFGraph.

Import TFGraph.

(** ** The network components built outside [models/tacotron.py]

    [initialize] only wires these together; they are parameters of the
    embedding.  [decoder_cell] stands for
    [TacotronDecoderCell(PrenetCell(is_training), LocationSensitiveAttention(
    attention_depth, encoder_outputs), MultiRNNCell([LSTMBlockCell(
    decoder_lstm_units)] * 2), FrameProjectionCell(frame_size))]. *)
Record Network := {
  DecoderState : Type;
  embedding_lookup : list (list Z) -> tensor3;
  conv_and_lstm :
    tensor3 -> option (list Z) -> nat -> nat -> nat -> nat -> bool -> string
    -> tensor3;
  postnet : tensor3 -> nat -> nat -> nat -> bool -> tensor3;
  dense : tensor3 -> nat -> tensor3;
  decoder_cell :
    bool -> tensor3 -> nat -> nat -> nat -> mat -> DecoderState
    -> mat * DecoderState;
  zero_state : nat -> DecoderState;
  alignment_history : DecoderState -> tensor3
}.

(** The two decoding helpers of [models/helpers.py]. *)
Record Helpers := {
  TacoTrainingHelper :
    list (list Z) -> option tensor3 -> nat -> nat -> option Helper;
  TacoTestHelper : nat -> nat -> nat -> Helper
}.

Definition ceil_div (a b : nat) : nat := (a + b - 1) / b.

(** Modelled from the spec: [TacoTrainingHelper] of [models/helpers.py],
    which is not among the sources.  Teacher forcing: the first input is a
    zero frame, the input of step [t] is the target frame at position
    [t * r], and the loop runs for the number of steps that covers the
    target length rounded up to a multiple of [r].  Without targets there is
    nothing to feed. *)
Definition TacoTrainingHelper_spec (inputs : list (list Z))
           (targets : option tensor3) (output_dim r : nat) : option Helper :=
  match targets with
  | None => None
  | Some tg =>
    let batch_size := length inputs in
    let target_length := match tg with [] => 0 | item :: _ => length item end in
    let num_steps := ceil_div target_length r in
    let zero_frame := repeat 0%R output_dim in
    Some {| helper_initialize :=
              (repeat (num_steps <=? 0) batch_size,
               repeat zero_frame batch_size);
            helper_next_inputs := fun time _ =>
              (repeat (num_steps <=? time + 1) batch_size,
               map (fun item : mat => nth ((time + 1) * r) item zero_frame)
                   tg) |}
  end.

(** Modelled from the spec: [TacoTestHelper] of [models/helpers.py], which is
    not among the sources.  Autoregression: the first input is a zero frame,
    the next input is the last of the [r] frames just emitted, and a batch
    item stops when that frame is below the threshold ([below_threshold]). *)
Definition TacoTestHelper_spec (below_threshold : vec -> bool)
           (batch_size output_dim r : nat) : Helper :=
  {| helper_initialize :=
       (repeat false batch_size, repeat (repeat 0%R output_dim) batch_size);
     helper_next_inputs := fun _ outputs =>
       let last_frames :=
         map (fun row : vec => skipn (length row - output_dim) row) outputs in
       (map below_threshold last_frames, last_frames) |}.

(** ** [initialize] *)

Section Initialize.

Variable net : Network.
Variable helpers : Helpers.
Variable hp : HParams.

(** [is_training = linear_targets is not None]. *)
Definition is_training (linear_targets : option tensor3) : bool :=
  match linear_targets with
  | Some _ => true
  | None => false
  end.

(** [TacoTrainingHelper(inputs, mel_targets, hp.num_mels, hp.outputs_per_step)]
    if [is_training], else
    [TacoTestHelper(batch_size, hp.num_mels, hp.outputs_per_step)]. *)
Definition make_helper (inputs : list (list Z))
           (mel_targets linear_targets : option tensor3) : option Helper :=
  if is_training linear_targets then
    TacoTrainingHelper helpers inputs mel_targets
                       (num_mels hp) (outputs_per_step hp)
  else
    Some (TacoTestHelper helpers (length inputs)
                         (num_mels hp) (outputs_per_step hp)).

Definition initialize (inputs : list (list Z)) (input_lengths : list Z)
           (mel_targets linear_targets : option tensor3)
  : option Initialized :=
  let training := is_training linear_targets in
  let batch_size := length inputs in
  let T_in := match inputs with [] => 0 | row :: _ => length row end in
  let embedded_inputs := embedding_lookup net inputs in
  let encoder_outputs :=
    conv_and_lstm net embedded_inputs (Some input_lengths)
                  (encoder_conv_layers hp) (encoder_conv_width hp)
                  (encoder_conv_channels hp) (encoder_lstm_units hp)
                  training "encoder" in
  let cell :=
    decoder_cell net training encoder_outputs (attention_depth hp)
                 (decoder_lstm_units hp)
                 (num_mels hp * outputs_per_step hp) in
  match make_helper inputs mel_targets linear_targets with
  | None => None
  | Some helper =>
    let decoder_init_state := zero_state net batch_size in
    let '(multi_decoder_outputs, final_decoder_state) :=
      dynamic_decode
        {| TFGraph.cell := cell;
           TFGraph.helper := helper;
           initial_state := decoder_init_state |}
        (max_iters hp) batch_size in
    match reshape_infer multi_decoder_outputs batch_size (num_mels hp) with
    | None => None
    | Some decoder_outputs =>
      let postnet_outputs :=
        postnet net decoder_outputs (postnet_conv_layers hp)
                (postnet_conv_width hp) (postnet_conv_channels hp) training in
      match tf_add decoder_outputs postnet_outputs with
      | None => None
      | Some mel_outputs =>
        let expand_outputs :=
          conv_and_lstm net mel_outputs None
                        (expand_conv_layers hp) (expand_conv_width hp)
                        (expand_conv_channels hp) (expand_lstm_units hp)
                        training "expand" in
        let linear_outputs := dense net expand_outputs (num_freq hp) in
        let alignments :=
          transpose_120 batch_size T_in
                        (alignment_history net final_decoder_state) in
        Some {| inputs := inputs;
                input_lengths := input_lengths;
                decoder_outputs := decoder_outputs;
                mel_outputs := mel_outputs;
                linear_outputs := linear_outputs;
                linear_targets := linear_targets;
                alignments := alignments;
                mel_targets := mel_targets |}
      end
    end
  end.

End Initialize.

(** ** [add_optimizer] *)

(** The update operation made by [optimizer.apply_gradients], run after the
    [UPDATE_OPS] collection: an Adam step on [opt_grads_and_vars]. *)
Record ApplyGradients := {
  opt_learning_rate : R;
  opt_beta1 : Q;
  opt_beta2 : Q;
  opt_grads_and_vars : list (option vec * Variable_);
  opt_global_step : Z
}.

Record Optimized := {
  learning_rate : R;
  gradients : list (option vec);
  optimize : ApplyGradients
}.

Section AddOptimizer.

Variable hp : HParams.

(** [optimizer.compute_gradients(self.loss)]: automatic differentiation, a
    parameter; a variable the loss does not depend on has gradient [None]. *)
Variable compute_gradients : R -> list (option vec * Variable_).

Definition add_optimizer (self : Losses) (global_step : Z)
  : option Optimized :=
  match exponential_decay (Q2R (initial_learning_rate hp)) global_step
                          (learning_rate_decay_halflife hp) 0.5%R with
  | None => None
  | Some lr =>
    match compute_gradients (loss self) with
    | [] => None
    | (_ :: _) as grads_vars =>
      let grads := map fst grads_vars in
      let variables := map snd grads_vars in
      let '(clipped_gradients, _) := clip_by_global_norm grads 1%R in
      Some {| learning_rate := lr;
              gradients := grads;
              optimize :=
                {| opt_learning_rate := lr;
                   opt_beta1 := adam_beta1 hp;
                   opt_beta2 := adam_beta2 hp;
                   opt_grads_and_vars := combine clipped_gradients variables;
                   opt_global_step := global_step |} |}
    end
  end.

End AddOptimizer.

(** ** Location-sensitive attention *)

Module Attention.

(** Modelled from the spec: [LocationSensitiveAttention] of
    [models/attention.py], which is not among the sources, for one batch
    item.  At each decoder step the energies combine a content term (query
    against the encoder outputs) with a location term computed from the
    cumulative alignment; the alignment is their softmax, the context is the
    alignment-weighted sum of the encoder outputs, and the alignment is added
    to the cumulative alignment, which starts at zero. *)
Section LocationSensitive.

Variable Query : Type.
Variable memory : mat.
Variable energies : Query -> mat -> vec -> vec.

Definition softmax (e : vec) : vec :=
  map (fun x => exp x / rsum (map exp e))%R e.

Definition scale (a : R) (v : vec) : vec := map (fun x => a * x)%R v.

Definition context (alignment : vec) : vec :=
  fold_right (zip_with Rplus)
             (repeat 0%R (match memory with [] => 0 | r :: _ => length r end))
             (zip_with scale alignment memory).

Record State := {
  cumulative : vec;
  alignment_history : list vec
}.

Definition zero_state : State :=
  {| cumulative := repeat 0%R (length memory); alignment_history := [] |}.

Definition step (s : State) (query : Query) : State :=
  let alignment := softmax (energies query memory (cumulative s)) in
  {| cumulative := zip_with Rplus (cumulative s) alignment;
     alignment_history := alignment_history s ++ [alignment] |}.

Definition step_context (s : State) (query : Query) : vec :=
  context (softmax (energies query memory (cumulative s))).

(** The state after the decoder steps that issue [queries] in turn. *)
Definition run (queries : list Query) : State :=
  fold_left step queries zero_state.

(** The elementwise sum of a list of alignments over [T_in] positions. *)
Definition sum_alignments (T_in : nat) (l : list vec) : vec :=
  fold_left (zip_with Rplus) l (repeat 0%R T_in).

(** What every state reached after [n] steps satisfies: the alignments
    recorded so far are distributions over the encoder positions and the
    cumulative alignment is their sum. *)
Definition invariant (n : nat) (s : State) : Prop :=
  length (cumulative s) = length memory /\
  length (alignment_history s) = n /\
  Forall (fun a : vec =>
            length a = length memory /\
            Forall (fun x => 0 < x)%R a /\
            rsum a = 1%R)
         (alignment_history s) /\
  cumulative s = sum_alignments (length memory) (alignment_history s).

End LocationSensitive.

End Attention.

(** ** Conditions under which the loss is defined *)

(** The state of a model initialized with targets on a batch of [N]
    sequences of [T] frames, with hyper-parameters for which every loss
    term is a real number. *)
Record loss_ready (hp : HParams) (all_vars : list Variable_) (N T : nat)
       (self : Initialized) (mt lt : tensor3) : Prop := {
  ready_mel_targets : mel_targets self = Some mt;
  ready_linear_targets : linear_targets self = Some lt;
  ready_mt : has_shape N T (num_mels hp) mt;
  ready_decoder : has_shape N T (num_mels hp) (decoder_outputs self);
  ready_mel : has_shape N T (num_mels hp) (mel_outputs self);
  ready_lt : has_shape N T (num_freq hp) lt;
  ready_linear : has_shape N T (num_freq hp) (linear_outputs self);
  ready_N : 0 < N;
  ready_T : 0 < T;
  ready_num_mels : 0 < num_mels hp;
  ready_sample_rate :
    (0 < sample_rate hp <= 4000 * Z.of_nat (num_freq hp))%Z;
  ready_max_abs : ~ (max_abs_value hp == 0)%Q;
  ready_weights : exists v, In v all_vars /\ is_bias v = false
}.

(** The variables that enter the regularization term. *)
Definition weight_vars (all_vars : list Variable_) : list Variable_ :=
  filter (fun v => negb (is_bias v)) all_vars.

(** [n] is the L2 norm of [v]. *)
Definition is_l2_norm (v : list R) (n : R) : Prop :=
  (0 <= n)%R /\ (n * n)%R = rsum (map Rsqr v).

(** [n] rounded up to a multiple of [r]. *)
Definition round_up (n r : nat) : nat := ceil_div n r * r.

(** Both targets are given to [initialize]; none is. *)
Definition targets_supplied (mel_targets linear_targets : option tensor3)
  : Prop :=
  mel_targets <> None /\ linear_targets <> None.

Definition targets_absent (mel_targets linear_targets : option tensor3)
  : Prop :=
  mel_targets = None /\ linear_targets = None.

(** ** Shape contracts of the components

    What [initialize] relies on for a batch of [N] sequences: the decoder
    cell ends in [FrameProjectionCell(num_mels * outputs_per_step)], so on
    [N] input rows it emits [N] rows of that width; the postnet returns a
    residual of the shape of its input; the expand stage followed by
    [tf.layers.dense(_, num_freq)] keeps batch and time and ends with
    [num_freq] channels. *)
Record network_contract (net : Network) (hp : HParams) (N : nat) : Prop := {
  cell_shape :
    forall training enc inp st,
      length inp = N ->
      let out :=
        fst (decoder_cell net training enc (attention_depth hp)
                          (decoder_lstm_units hp)
                          (num_mels hp * outputs_per_step hp) inp st) in
      length out = N /\
      Forall (fun row : vec => length row = num_mels hp * outputs_per_step hp)
             out;
  postnet_shape :
    forall x T training,
      has_shape N T (num_mels hp) x ->
      has_shape N T (num_mels hp)
                (postnet net x (postnet_conv_layers hp) (postnet_conv_width hp)
                         (postnet_conv_channels hp) training);
  expand_shape :
    forall x T training,
      has_shape N T (num_mels hp) x ->
      has_shape N T (num_freq hp)
                (dense net
                       (conv_and_lstm net x None (expand_conv_layers hp)
                                      (expand_conv_width hp)
                                      (expand_conv_channels hp)
                                      (expand_lstm_units hp) training "expand")
                       (num_freq hp))
}.

(** A helper for a batch of [N] sequences feeds [N] rows at every step,
    given the [N] rows the cell has emitted. *)
Definition helper_feeds (N : nat) (h : Helper) : Prop :=
  length (snd (helper_initialize h)) = N /\
  forall time outputs,
    length outputs = N ->
    length (snd (helper_next_inputs h time outputs)) = N.

(** The network whose components run with the training flag [b], whatever
    flag they are given. *)
Definition force_mode (b : bool) (net : Network) : Network :=
  {| DecoderState := DecoderState net;
     embedding_lookup := embedding_lookup net;
     conv_and_lstm := fun x lengths layers width channels units _ scope =>
       conv_and_lstm net x lengths layers width channels units b scope;
     postnet := fun x layers width channels _ =>
       postnet net x layers width channels b;
     dense := dense net;
     decoder_cell := fun _ => decoder_cell net b;
     zero_state := zero_state net;
     alignment_history := alignment_history net |}.

(** The time dimension of a batch-major tensor. *)
Definition time_steps (x : tensor3) : nat :=
  match x with
  | [] => 0
  | item :: _ => length item
  end.

(** The decoder that [initialize] hands to [dynamic_decode], and the number
    of steps the decode loop then makes. *)
Definition decoder_of (net : Network) (hp : HParams) (inputs : list (list Z))
           (input_lengths : list Z) (training : bool) (h : Helper)
  : BasicDecoder (DecoderState net) :=
  {| cell :=
       decoder_cell net training
         (conv_and_lstm net (embedding_lookup net inputs) (Some input_lengths)
                        (encoder_conv_layers hp) (encoder_conv_width hp)
                        (encoder_conv_channels hp) (encoder_lstm_units hp)
                        training "encoder")
         (attention_depth hp) (decoder_lstm_units hp)
         (num_mels hp * outputs_per_step hp);
     helper := h;
     initial_state := zero_state net (length inputs) |}.

Definition decode_steps (net : Network) (hp : HParams)
           (inputs : list (list Z)) (input_lengths : list Z)
           (training : bool) (h : Helper) : nat :=
  length (fst (dynamic_decode_steps
                 (decoder_of net hp inputs input_lengths training h)
                 (max_iters hp))).

(** ** A small configuration used in the examples *)

Module Example.

Definition hp : HParams :=
  {| embedding_dim := 2;
     encoder_conv_layers := 1;
     encoder_conv_width := 1;
     encoder_conv_channels := 2;
     encoder_lstm_units := 1;
     attention_depth := 2;
     decoder_lstm_units := 2;
     num_mels := 1;
     outputs_per_step := 2;
     postnet_conv_layers := 1;
     postnet_conv_width := 1;
     postnet_conv_channels := 2;
     expand_conv_layers := 1;
     expand_conv_width := 1;
     expand_conv_channels := 2;
     expand_lstm_units := 1;
     num_freq := 4;
     sample_rate := 8000;
     max_iters := 3;
     symmetric_mels := true;
     max_abs_value := 4;
     initial_learning_rate := 2 # 1000;
     learning_rate_decay_halflife := 100000;
     adam_beta1 := 9 # 10;
     adam_beta2 := 999 # 1000 |}.

(** The same configuration with asymmetric mels. *)
Definition hp_asymmetric : HParams :=
  {| embedding_dim := 2;
     encoder_conv_layers := 1;
     encoder_conv_width := 1;
     encoder_conv_channels := 2;
     encoder_lstm_units := 1;
     attention_depth := 2;
     decoder_lstm_units := 2;
     num_mels := 1;
     outputs_per_step := 2;
     postnet_conv_layers := 1;
     postnet_conv_width := 1;
     postnet_conv_channels := 2;
     expand_conv_layers := 1;
     expand_conv_width := 1;
     expand_conv_channels := 2;
     expand_lstm_units := 1;
     num_freq := 4;
     sample_rate := 8000;
     max_iters := 3;
     symmetric_mels := false;
     max_abs_value := 4;
     initial_learning_rate := 2 # 1000;
     learning_rate_decay_halflife := 100000;
     adam_beta1 := 9 # 10;
     adam_beta2 := 999 # 1000 |}.

Definition all_vars : list Variable_ :=
  [ {| name := "inference/embedding:0"; value := [4%R] |};
    {| name := "inference/dense/bias:0"; value := [1%R] |} ].

Definition mt : tensor3 := [[[1%R]]].
Definition lt : tensor3 := [[[1%R; 2%R; 3%R; 4%R]]].

(** A model state after [initialize] with targets, one sequence of one
    frame. *)
Definition self : Initialized :=
  {| inputs := [[0%Z]];
     input_lengths := [1%Z];
     alignments := [[[1%R]]];
     decoder_outputs := [[[0%R]]];
     mel_outputs := [[[1%R]]];
     linear_outputs := [[[0%R; 0%R; 0%R; 0%R]]];
     linear_targets := Some lt;
     mel_targets := Some mt |}.

(** Losses and gradients for the optimizer: the embedding has gradient
    [[3; 4]] (global norm 5), the bias none. *)
Definition losses : Losses :=
  {| decoder_loss := 1;
     mel_loss := 0;
     linear_loss := 2;
     regularization_loss := 0;
     loss := 3 |}.

Definition compute_gradients (_ : R) : list (option vec * Variable_) :=
  [ (Some [3%R; 4%R],
     {| name := "inference/embedding:0"; value := [4%R] |});
    (None, {| name := "inference/dense/bias:0"; value := [1%R] |}) ].

(** A network with constant components, for a batch of any size. *)
Definition net : Network :=
  {| DecoderState := unit;
     embedding_lookup := fun ids => map (map (fun _ => [0%R; 0%R])) ids;
     conv_and_lstm := fun x _ _ _ _ _ _ _ => x;
     postnet := fun x _ _ _ _ => map3 (fun _ => 0%R) x;
     dense := fun x units => map (map (fun _ => repeat 0%R units)) x;
     decoder_cell := fun _ _ _ _ frame_size inp st =>
       (map (fun _ => repeat 1%R frame_size) inp, st);
     zero_state := fun _ => tt;
     alignment_history := fun _ => [] |}.

(** The helpers as the spec describes them; the test helper never stops
    by itself. *)
Definition helpers : Helpers :=
  {| TacoTrainingHelper := TacoTrainingHelper_spec;
     TacoTestHelper := TacoTestHelper_spec (fun _ => false) |}.

(** One input sequence of three symbols. *)
Definition text : list (list Z) := [[5%Z; 7%Z; 1%Z]].
Definition text_lengths : list Z := [3%Z].

(** Targets of five frames for that sequence. *)
Definition mel5 : tensor3 := [[[1%R]; [1%R]; [1%R]; [1%R]; [1%R]]].
Definition lin5 : tensor3 :=
  [[repeat 1%R 4; repeat 1%R 4; repeat 1%R 4; repeat 1%R 4; repeat 1%R 4]].

(** Targets of nine frames: more than [max_iters * outputs_per_step = 6]. *)
Definition mel9 : tensor3 := [repeat [1%R] 9].
Definition lin9 : tensor3 := [repeat (repeat 1%R 4) 9].

(** Encoder outputs for three positions, and energies that only look at
    the cumulative alignment. *)
Definition memory : mat := [[1%R]; [2%R]; [3%R]].

Definition energies (_ : unit) (_ : mat) (cumulative : vec) : vec :=
  map Ropp cumulative.

End Example.

(** ** Further definitions for the properties of the code *)


(** [hp] with another sample rate. *)
Definition set_sample_rate (sr : Z) (hp : HParams) : HParams :=
  {| embedding_dim := embedding_dim hp;
     encoder_conv_layers := encoder_conv_layers hp;
     encoder_conv_width := encoder_conv_width hp;
     encoder_conv_channels := encoder_conv_channels hp;
     encoder_lstm_units := encoder_lstm_units hp;
     attention_depth := attention_depth hp;
     decoder_lstm_units := decoder_lstm_units hp;
     num_mels := num_mels hp;
     outputs_per_step := outputs_per_step hp;
     postnet_conv_layers := postnet_conv_layers hp;
     postnet_conv_width := postnet_conv_width hp;
     postnet_conv_channels := postnet_conv_channels hp;
     expand_conv_layers := expand_conv_layers hp;
     expand_conv_width := expand_conv_width hp;
     expand_conv_channels := expand_conv_channels hp;
     expand_lstm_units := expand_lstm_units hp;
     num_freq := num_freq hp;
     sample_rate := sr;
     max_iters := max_iters hp;
     symmetric_mels := symmetric_mels hp;
     max_abs_value := max_abs_value hp;
     initial_learning_rate := initial_learning_rate hp;
     learning_rate_decay_halflife := learning_rate_decay_halflife hp;
     adam_beta1 := adam_beta1 hp;
     adam_beta2 := adam_beta2 hp |}.

(** The model state of the example with other linear outputs. *)
Definition set_linear_outputs (x : tensor3) (self : Initialized)
  : Initialized :=
  {| inputs := inputs self;
     input_lengths := input_lengths self;
     alignments := alignments self;
     decoder_outputs := decoder_outputs self;
     mel_outputs := mel_outputs self;
     linear_outputs := x;
     linear_targets := linear_targets self;
     mel_targets := mel_targets self |}.

(** The state of the example model initialized without targets. *)
Definition inference_state : Initialized :=
  match initialize Example.net Example.helpers Example.hp Example.text
                   Example.text_lengths None None with
  | Some self => self
  | None => Example.self
  end.

(** A collection that holds bias variables only. *)
Definition bias_vars : list Variable_ :=
  [ {| name := "inference/dense/bias:0"; value := [1%R] |};
    {| name := "inference/decoder/Bias:0"; value := [2%R] |} ].
Section ListFacts.

Context {A B C : Type}.

Lemma list_eq_map_nth (d : A) (l : list A) :
  l = map (fun i => nth i l d) (seq 0 (length l)).
Proof.
  induction l as [|a l IH]; simpl; [reflexivity|].
  f_equal. rewrite <- seq_shift, map_map. exact IH.
Qed.

Lemma zip_with_map (f : A -> B -> C) (D : Type) (g : D -> A) (h : D -> B)
      (l : list D) :
  zip_with f (map g l) (map h l) = map (fun x => f (g x) (h x)) l.
Proof.
  induction l as [|x l IH]; simpl; [reflexivity|]. now rewrite IH.
Qed.

Lemma map_flat_map_comm (D : Type) (h : B -> C) (g : D -> list B)
      (l : list D) :
  map h (flat_map g l) = flat_map (fun x => map h (g x)) l.
Proof.
  induction l as [|x l IH]; simpl; [reflexivity|].
  now rewrite map_app, IH.
Qed.

Lemma concat_map_flat_map (g : A -> list B) (l : list A) :
  concat (map g l) = flat_map g l.
Proof. symmetry. apply flat_map_concat_map. Qed.

Lemma concat_flat_map (g : A -> list (list B)) (l : list A) :
  concat (flat_map g l) = flat_map (fun x => concat (g x)) l.
Proof.
  induction l as [|x l IH]; simpl; [reflexivity|].
  now rewrite concat_app, IH.
Qed.

Lemma filter_flat_map (p : B -> bool) (g : A -> list B) (l : list A) :
  filter p (flat_map g l) = flat_map (fun x => filter p (g x)) l.
Proof.
  induction l as [|x l IH]; simpl; [reflexivity|].
  now rewrite filter_app, IH.
Qed.

Lemma flat_map_ext_in (g h : A -> list B) (l : list A) :
  (forall x, In x l -> g x = h x) -> flat_map g l = flat_map h l.
Proof.
  induction l as [|x l IH]; simpl; intros E; [reflexivity|].
  rewrite (E x) by now left. f_equal. apply IH. intros; apply E; now right.
Qed.

Lemma length_flat_map_const (g : A -> list B) (l : list A) (k : nat) :
  (forall x, In x l -> length (g x) = k) ->
  length (flat_map g l) = (length l * k)%nat.
Proof.
  induction l as [|x l IH]; simpl; intros E; [reflexivity|].
  rewrite length_app, (E x) by now left.
  rewrite IH; [reflexivity|]. intros; apply E; now right.
Qed.

End ListFacts.

Lemma filter_seq_lt (k F : nat) :
  filter (fun f => f <? k) (seq 0 F) = seq 0 (Nat.min k F).
Proof.
  induction F as [|F IH].
  - now rewrite Nat.min_0_r.
  - rewrite seq_S, filter_app, IH. simpl.
    destruct (Nat.ltb_spec F k).
    + rewrite (Nat.min_r k F) by lia. rewrite (Nat.min_r k (S F)) by lia.
      now rewrite seq_S.
    + rewrite (Nat.min_l k F) by lia. rewrite (Nat.min_l k (S F)) by lia.
      now rewrite app_nil_r.
Qed.

Lemma firstn_seq_min (k s F : nat) :
  firstn k (seq s F) = seq s (Nat.min k F).
Proof.
  revert s F. induction k as [|k IH]; intros s [|F]; simpl; try reflexivity.
  now rewrite IH.
Qed.

Lemma firstn_map_seq (g : nat -> R) (k F : nat) :
  firstn k (map g (seq 0 F)) = map g (seq 0 (Nat.min k F)).
Proof.
  rewrite firstn_map. f_equal. apply firstn_seq_min.
Qed.

(** *** Tensors in tabulated form *)

Lemma list_eq_tabulate {A : Type} (d : A) (l : list A) (n : nat)
      (g : nat -> A) :
  length l = n -> (forall i, (i < n)%nat -> nth i l d = g i) ->
  l = map g (seq 0 n).
Proof.
  intros Hn Hg. subst n. rewrite (list_eq_map_nth d l) at 1.
  apply map_ext_in. intros i Hi. apply in_seq in Hi. apply Hg. lia.
Qed.

Lemma tabulate_get (N T F : nat) (x : tensor3) :
  has_shape N T F x -> x = tabulate N T F (get x).
Proof.
  intros [HN HF]. rewrite Forall_forall in HF.
  apply (list_eq_tabulate []); [exact HN|]. intros n Hn.
  assert (Hm : In (nth n x []) x) by (apply nth_In; lia).
  destruct (HF _ Hm) as [HT HR]. rewrite Forall_forall in HR.
  apply (list_eq_tabulate []); [exact HT|]. intros t Ht.
  assert (Hr : In (nth t (nth n x []) []) (nth n x []))
    by (apply nth_In; lia).
  apply (list_eq_tabulate 0%R); [exact (HR _ Hr)|]. reflexivity.
Qed.

Lemma zip3_tabulate (f : R -> R -> R) (N T F : nat)
      (g h : nat * nat * nat -> R) :
  zip3 f (tabulate N T F g) (tabulate N T F h)
  = tabulate N T F (fun i => f (g i) (h i)).
Proof.
  unfold zip3, tabulate. rewrite zip_with_map.
  apply map_ext. intros n. rewrite zip_with_map.
  apply map_ext. intros t. now rewrite zip_with_map.
Qed.

Lemma map3_tabulate (f : R -> R) (N T F : nat) (g : nat * nat * nat -> R) :
  map3 f (tabulate N T F g) = tabulate N T F (fun i => f (g i)).
Proof.
  unfold map3, tabulate. rewrite map_map.
  apply map_ext. intros n. rewrite map_map.
  apply map_ext. intros t. now rewrite map_map.
Qed.

Lemma slice_tabulate (k : Z) (N T F : nat) (g : nat * nat * nat -> R) :
  (0 <= k)%Z ->
  TF.slice_last_axis k (tabulate N T F g)
  = tabulate N T (Nat.min (Z.to_nat k) F) g.
Proof.
  intros Hk. unfold TF.slice_last_axis, tabulate. rewrite map_map.
  apply map_ext. intros n. rewrite map_map.
  apply map_ext. intros t. unfold TF.slice_upto.
  destruct (Z.leb_spec 0 k); [|lia].
  apply (firstn_map_seq (fun f => g (n, t, f))).
Qed.

Lemma flatten_tabulate (N T F : nat) (g : nat * nat * nat -> R) :
  flatten3 (tabulate N T F g) = map g (entries N T F).
Proof.
  unfold flatten3, tabulate, entries.
  rewrite map_flat_map_comm.
  rewrite concat_map_flat_map, concat_flat_map.
  apply flat_map_ext_in. intros n _.
  rewrite map_flat_map_comm, concat_map_flat_map.
  apply flat_map_ext_in. intros t _. now rewrite map_map.
Qed.

Lemma length_entries (N T F : nat) :
  length (entries N T F) = (N * T * F)%nat.
Proof.
  unfold entries.
  rewrite length_flat_map_const with (k := (T * F)%nat).
  - rewrite length_seq. lia.
  - intros n _. rewrite length_flat_map_const with (k := F).
    + now rewrite length_seq.
    + intros t _. now rewrite length_map, length_seq.
Qed.

Lemma low_bins_entries (k : Z) (N T F : nat) :
  (0 <= k)%Z ->
  low_bins k (entries N T F) = entries N T (Nat.min (Z.to_nat k) F).
Proof.
  intros Hk. unfold low_bins, entries.
  rewrite filter_flat_map. apply flat_map_ext_in. intros n _.
  rewrite filter_flat_map. apply flat_map_ext_in. intros t _.
  rewrite <- filter_seq_lt.
  induction (seq 0 F) as [|f l IH]; simpl; [reflexivity|].
  destruct (Z.ltb_spec (Z.of_nat f) k), (Nat.ltb_spec f (Z.to_nat k));
    try lia; simpl; now rewrite IH.
Qed.

Lemma forallb_combine_map {A B D : Type} (p : A * B -> bool)
      (g : D -> A) (h : D -> B) (l : list D) :
  (forall x, p (g x, h x) = true) ->
  forallb p (combine (map g l) (map h l)) = true.
Proof.
  intros Hp. induction l as [|x l IH]; simpl; [reflexivity|].
  now rewrite Hp, IH.
Qed.

Lemma same_shape3_tabulate (N T F : nat) (g h : nat * nat * nat -> R) :
  same_shape3 (tabulate N T F g) (tabulate N T F h) = true.
Proof.
  unfold same_shape3, tabulate.
  rewrite !length_map, Nat.eqb_refl. simpl.
  apply forallb_combine_map. intros n. simpl.
  unfold same_shape2. rewrite !length_map, Nat.eqb_refl. simpl.
  apply forallb_combine_map. intros t. simpl.
  unfold same_shape1. now rewrite !length_map, Nat.eqb_refl.
Qed.

(** *** Means in index form *)

Lemma reduce_mean_tabulate (N T F : nat) (g : nat * nat * nat -> R) :
  (0 < N * T * F)%nat ->
  TF.reduce_mean (tabulate N T F g) = Some (mean_over (entries N T F) g).
Proof.
  intros Hpos. unfold TF.reduce_mean, num_elements, mean_over.
  rewrite flatten_tabulate, length_map.
  destruct (length (entries N T F)) eqn:E.
  - rewrite length_entries in E. lia.
  - reflexivity.
Qed.

Lemma mean_squared_error_tabulate (N T F : nat)
      (g h : nat * nat * nat -> R) :
  (0 < N * T * F)%nat ->
  TF.mean_squared_error (tabulate N T F g) (tabulate N T F h)
  = Some (mean_over (entries N T F) (fun i => Rsqr (g i - h i))).
Proof.
  intros Hpos. unfold TF.mean_squared_error.
  rewrite same_shape3_tabulate, zip3_tabulate. unfold num_elements.
  rewrite flatten_tabulate, length_map.
  destruct (length (entries N T F)) eqn:E.
  - rewrite length_entries in E. lia.
  - unfold mean_over. rewrite E. do 3 f_equal.
    apply map_ext. intros i. apply Rsqr_neg_minus.
Qed.

Lemma mean_squared_error_index (N T F : nat) (labels predictions : tensor3) :
  has_shape N T F labels -> has_shape N T F predictions ->
  (0 < N * T * F)%nat ->
  TF.mean_squared_error labels predictions
  = Some (mean_over (entries N T F) (sq_err labels predictions)).
Proof.
  intros Hl Hp Hpos.
  transitivity (TF.mean_squared_error (tabulate N T F (get labels))
                                      (tabulate N T F (get predictions))).
  - now rewrite <- (tabulate_get Hl), <- (tabulate_get Hp).
  - now apply mean_squared_error_tabulate.
Qed.

Lemma n_priority_freq_closed (hp : HParams) :
  (0 < sample_rate hp)%Z ->
  n_priority_freq hp
  = Some (4000 * Z.of_nat (num_freq hp) / sample_rate hp)%Z.
Proof.
  intros Hsr. unfold n_priority_freq.
  destruct (sample_rate hp) as [|p|p] eqn:E; try lia.
  assert (HF : (0 <= Z.of_nat (num_freq hp))%Z) by lia.
  revert HF. generalize (Z.of_nat (num_freq hp)). intros F HF.
  unfold py_int. cbn. rewrite !Pos.mul_1_r. f_equal.
  apply Z.quot_div_nonneg; [|lia].
  destruct F; [lia|lia|]. exfalso. lia.
Qed.


(** ** The loss terms *)

Lemma has_shape_pos_entries (N T F : nat) :
  0 < N -> 0 < T -> 0 < F -> 0 < N * T * F.
Proof. intros. repeat apply Nat.mul_pos_pos; assumption. Qed.

Lemma linear_loss_tabulate (hp : HParams) (N T F : nat) (k : Z)
      (g h : nat * nat * nat -> R) :
  n_priority_freq hp = Some k -> (1 <= k)%Z ->
  0 < N -> 0 < T -> 0 < F ->
  compute_linear_loss hp (tabulate N T F g) (tabulate N T F h)
  = Some (0.5 * mean_over (entries N T F) (fun i => Rabs (g i - h i))
          + 0.5 * mean_over (low_bins k (entries N T F))
                            (fun i => Rabs (g i - h i)))%R.
Proof.
  intros Hk Hk1 HN HT HF. unfold compute_linear_loss, TF.tf_sub, TF.tf_abs.
  rewrite same_shape3_tabulate, zip3_tabulate, map3_tabulate, Hk.
  rewrite slice_tabulate by lia.
  rewrite !reduce_mean_tabulate.
  - rewrite low_bins_entries by lia. reflexivity.
  - apply has_shape_pos_entries; lia.
  - now apply has_shape_pos_entries.
Qed.

Lemma linear_loss_index (hp : HParams) (N T F : nat) (k : Z)
      (targets outputs : tensor3) :
  has_shape N T F targets -> has_shape N T F outputs ->
  n_priority_freq hp = Some k -> (1 <= k)%Z ->
  0 < N -> 0 < T -> 0 < F ->
  compute_linear_loss hp targets outputs
  = Some (0.5 * mean_over (entries N T F) (abs_err targets outputs)
          + 0.5 * mean_over (low_bins k (entries N T F))
                            (abs_err targets outputs))%R.
Proof.
  intros Ht Ho Hk Hk1 HN HT HF.
  transitivity (compute_linear_loss hp (tabulate N T F (get targets))
                                    (tabulate N T F (get outputs))).
  - now rewrite <- (tabulate_get Ht), <- (tabulate_get Ho).
  - now apply linear_loss_tabulate.
Qed.

Lemma reg_weight_value (hp : HParams) :
  ~ (max_abs_value hp == 0)%Q ->
  reg_weight hp
  = Some ((1 # 1000000)
          * (1 / (if symmetric_mels hp then 2 * max_abs_value hp
                  else max_abs_value hp)))%Q.
Proof.
  intros Hm. unfold reg_weight, reg_weight_scaler.
  destruct (Qeq_bool _ 0) eqn:E; [|reflexivity].
  apply Qeq_bool_iff in E. exfalso. apply Hm.
  destruct (symmetric_mels hp); [|exact E].
  apply (Qmult_integral 2) in E. destruct E as [E|E]; [discriminate E|exact E].
Qed.

Lemma filter_nonempty {A : Type} (p : A -> bool) (l : list A) (x : A) :
  In x l -> p x = true -> filter p l <> [].
Proof.
  intros Hin Hp E.
  assert (H : In x (filter p l)) by (apply filter_In; auto).
  rewrite E in H. exact H.
Qed.

Lemma regularization_loss_value (hp : HParams) (all_vars : list Variable_)
      (w : Q) :
  reg_weight hp = Some w ->
  (exists v, In v all_vars /\ is_bias v = false) ->
  compute_regularization_loss hp all_vars
  = Some (rsum (map (fun v => TF.l2_loss (value v)) (weight_vars all_vars))
          * Q2R w)%R.
Proof.
  intros Hw [v [Hin Hb]]. unfold compute_regularization_loss. rewrite Hw.
  fold (weight_vars all_vars).
  assert (Hne : weight_vars all_vars <> []).
  { apply (filter_nonempty _ _ v Hin). now rewrite Hb. }
  destruct (weight_vars all_vars) as [|v0 l]; [congruence|reflexivity].
Qed.

(** Under [loss_ready], [add_loss] returns, and each field has its index
    form. *)
Lemma add_loss_ready (hp : HParams) (all_vars : list Variable_) (N T : nat)
      (self : Initialized) (mt lt : tensor3) :
  loss_ready hp all_vars N T self mt lt ->
  exists (k : Z) (w : Q) (L : Losses),
    n_priority_freq hp = Some k /\ (1 <= k)%Z /\
    reg_weight hp = Some w /\
    add_loss hp all_vars self = Some L /\
    decoder_loss L
    = mean_over (entries N T (num_mels hp)) (sq_err mt (decoder_outputs self)) /\
    mel_loss L
    = mean_over (entries N T (num_mels hp)) (sq_err mt (mel_outputs self)) /\
    linear_loss L
    = (0.5 * mean_over (entries N T (num_freq hp))
                       (abs_err lt (linear_outputs self))
       + 0.5 * mean_over (low_bins k (entries N T (num_freq hp)))
                         (abs_err lt (linear_outputs self)))%R /\
    regularization_loss L
    = (rsum (map (fun v => TF.l2_loss (value v)) (weight_vars all_vars))
       * Q2R w)%R /\
    loss L
    = (decoder_loss L + mel_loss L + linear_loss L + regularization_loss L)%R.
Proof.
  intros [Hmt Hlt Smt Sdec Smel Slt Slin HN HT HM Hsr Hmax Hw].
  assert (Hk := n_priority_freq_closed hp (proj1 Hsr)).
  assert (Hk1 : (1 <= 4000 * Z.of_nat (num_freq hp) / sample_rate hp)%Z).
  { apply Z.div_le_lower_bound; lia. }
  assert (HF : 0 < num_freq hp) by lia.
  assert (Hrw := reg_weight_value hp Hmax).
  eexists _, _, _. split; [exact Hk|]. split; [exact Hk1|].
  split; [exact Hrw|].
  unfold add_loss. rewrite Hmt, Hlt.
  rewrite (mean_squared_error_index Smt Sdec),
          (mean_squared_error_index Smt Smel)
    by (now apply has_shape_pos_entries).
  rewrite (linear_loss_index hp Slt Slin Hk Hk1 HN HT HF).
  rewrite (regularization_loss_value hp all_vars Hrw Hw).
  split; [reflexivity|]. simpl. repeat split; reflexivity.
Qed.

Lemma example_loss_ready :
  loss_ready Example.hp Example.all_vars 1 1 Example.self
             Example.mt Example.lt.
Proof.
  constructor; try reflexivity; try (simpl; lia);
    try (split; [reflexivity | repeat constructor]).
  - intros H. discriminate H.
  - exists {| name := "inference/embedding:0"; value := [4%R] |}.
    split; [now left | reflexivity].
Defined.

(** C9.  After [initialize] with targets and [add_loss], the [loss] field is
    [decoder_loss + mel_loss + linear_loss + regularization_loss]; the
    decoder loss is the mean over all entries of the squared difference
    between the mel targets and the decoder outputs (before the postnet),
    the mel loss the same mean against the mel outputs (after the
    postnet). *)
Theorem add_loss_total (hp : HParams) (all_vars : list Variable_) (N T : nat)
        (self : Initialized) (mt lt : tensor3) :
  loss_ready hp all_vars N T self mt lt ->
  exists L : Losses,
    add_loss hp all_vars self = Some L /\
    loss L
    = (decoder_loss L + mel_loss L + linear_loss L + regularization_loss L)%R /\
    decoder_loss L
    = mean_over (entries N T (num_mels hp)) (sq_err mt (decoder_outputs self)) /\
    mel_loss L
    = mean_over (entries N T (num_mels hp)) (sq_err mt (mel_outputs self)).
Proof.
  intros H.
  destruct (add_loss_ready H)
    as (k & w & L & _ & _ & _ & HL & Hd & Hm & _ & _ & Hsum).
  exists L. auto.
Qed.

Lemma add_loss_total_witness :
  loss_ready Example.hp Example.all_vars 1 1 Example.self
             Example.mt Example.lt /\
  exists L : Losses,
    add_loss Example.hp Example.all_vars Example.self = Some L /\
    loss L
    = (decoder_loss L + mel_loss L + linear_loss L + regularization_loss L)%R /\
    decoder_loss L
    = mean_over (entries 1 1 (num_mels Example.hp))
                (sq_err Example.mt (decoder_outputs Example.self)) /\
    mel_loss L
    = mean_over (entries 1 1 (num_mels Example.hp))
                (sq_err Example.mt (mel_outputs Example.self)).
Proof.
  split; [exact example_loss_ready|].
  exact (add_loss_total example_loss_ready).
Defined.



(** The linear loss of the example: the absolute errors are 1, 2, 3, 4, the
    first two bins have priority, so the loss is
    [0.5 * 2.5 + 0.5 * 1.5 = 2]. *)
Example example_linear_loss :
  compute_linear_loss Example.hp Example.lt
                      (linear_outputs Example.self) = Some 2%R.
Proof.
  unfold compute_linear_loss, TF.tf_sub. simpl.
  unfold TF.reduce_mean, num_elements, flatten3. simpl.
  f_equal.
  replace (1 - 0)%R with 1%R by lra. replace (2 - 0)%R with 2%R by lra.
  replace (3 - 0)%R with 3%R by lra. replace (4 - 0)%R with 4%R by lra.
  rewrite !Rabs_pos_eq by lra. lra.
Qed.

(** ** The regularization term *)

Lemma Q2R_two : Q2R 2 = 2%R.
Proof. unfold Q2R. simpl. lra. Qed.

Lemma Q2R_millionth : Q2R (1 # 1000000) = (1 / 1000000)%R.
Proof. unfold Q2R. simpl. lra. Qed.

Lemma reg_weight_halved (m : Q) :
  ~ (m == 0)%Q ->
  Q2R ((1 # 1000000) * (1 / (2 * m)))
  = (Q2R ((1 # 1000000) * (1 / m)) / 2)%R.
Proof.
  intros Hm.
  assert (Hm2 : ~ (2 * m == 0)%Q).
  { intros E. apply Qmult_integral in E. destruct E as [E|E];
      [discriminate E | auto]. }
  assert (HR : Q2R m <> 0%R).
  { intros E. apply Hm. apply eqR_Qeq. rewrite E. unfold Q2R. simpl. lra. }
  rewrite !Q2R_mult, !Q2R_div, Q2R_mult, Q2R_two by assumption.
  field. exact HR.
Qed.

Lemma weight_vars_spec (all_vars : list Variable_) (v : Variable_) :
  In v (weight_vars all_vars) <->
  In v all_vars /\
  contains "bias" (name v) = false /\ contains "Bias" (name v) = false.
Proof.
  unfold weight_vars, is_bias. rewrite filter_In, negb_true_iff, orb_false_iff.
  reflexivity.
Qed.

Lemma l2_loss_half_square (v : list R) (n : R) :
  is_l2_norm v n -> TF.l2_loss v = (n * n / 2)%R.
Proof. intros [_ Hn]. unfold TF.l2_loss. now rewrite Hn. Qed.

Lemma add_loss_regularization_field (hp : HParams)
      (all_vars : list Variable_) (self : Initialized) (L : Losses) :
  add_loss hp all_vars self = Some L ->
  compute_regularization_loss hp all_vars = Some (regularization_loss L).
Proof.
  unfold add_loss. intros H.
  destruct (mel_targets self); [|discriminate].
  destruct (linear_targets self); [|discriminate].
  destruct (TF.mean_squared_error _ (decoder_outputs self)); [|discriminate].
  destruct (TF.mean_squared_error _ (mel_outputs self)); [|discriminate].
  destruct (compute_linear_loss _ _ _); [|discriminate].
  destruct (compute_regularization_loss hp all_vars); [|discriminate].
  injection H as <-. reflexivity.
Qed.

(** C3, as stated, fails: the term adds [tf.nn.l2_loss] of each weight,
    which is half the squared L2 norm, not the L2 norm.  With the single
    weight [[4]] (L2 norm 4, [l2_loss] 8) the term is [8 * reg_weight]. *)
Lemma regularization_not_l2_norm :
  ~ (forall (hp : HParams) (all_vars : list Variable_) (norms : list R)
            (w : Q) (r : R),
        Forall2 (fun v n => is_l2_norm (value v) n)
                (weight_vars all_vars) norms ->
        reg_weight hp = Some w ->
        compute_regularization_loss hp all_vars = Some r ->
        r = (rsum norms * Q2R w)%R).
Proof.
  intros H.
  assert (Hw : reg_weight Example.hp = Some ((1 # 1000000) * (1 / (2 * 4)))%Q)
    by reflexivity.
  specialize (H Example.hp Example.all_vars [4%R]
                ((1 # 1000000) * (1 / (2 * 4)))%Q
                (TF.l2_loss [4%R] * Q2R ((1 # 1000000) * (1 / (2 * 4))))%R).
  assert (E : (TF.l2_loss [4] * Q2R ((1 # 1000000) * (1 / (2 * 4)))
               = rsum [4] * Q2R ((1 # 1000000) * (1 / (2 * 4))))%R).
  { apply H.
    - repeat constructor; simpl; unfold Rsqr; lra.
    - exact Hw.
    - unfold compute_regularization_loss. rewrite Hw. simpl. f_equal. lra. }
  unfold TF.l2_loss, rsum, Q2R, Rsqr in E. simpl in E. lra.
Qed.

(** C3, amended.  [regularization_loss] is [reg_weight] times the sum of
    [tf.nn.l2_loss] (half the sum of squares, that is half the squared L2
    norm) over the trainable variables whose name contains neither ["bias"]
    nor ["Bias"]; and for the same variables the result with
    [symmetric_mels = True] (weight [1e-6 / (2 * max_abs_value)]) is exactly
    half the result with [symmetric_mels = False] (weight
    [1e-6 / max_abs_value]). *)
Theorem regularization_loss_weights (hp hp' : HParams)
        (all_vars : list Variable_) :
  symmetric_mels hp = true -> symmetric_mels hp' = false ->
  max_abs_value hp' = max_abs_value hp ->
  ~ (max_abs_value hp == 0)%Q ->
  (exists v, In v all_vars /\ is_bias v = false) ->
  exists (w w' : Q) (r r' : R),
    reg_weight hp = Some w /\ reg_weight hp' = Some w' /\
    (w == (1 # 1000000) / (2 * max_abs_value hp))%Q /\
    (w' == (1 # 1000000) / max_abs_value hp)%Q /\
    compute_regularization_loss hp all_vars = Some r /\
    compute_regularization_loss hp' all_vars = Some r' /\
    (forall self L, add_loss hp all_vars self = Some L ->
                    regularization_loss L = r) /\
    r = (rsum (map (fun v => rsum (map Rsqr (value v)) / 2)
                   (weight_vars all_vars)) * Q2R w)%R /\
    (forall v n, is_l2_norm (value v) n ->
                 (rsum (map Rsqr (value v)) / 2 = n * n / 2)%R) /\
    (forall v, In v (weight_vars all_vars) <->
               In v all_vars /\
               contains "bias" (name v) = false /\
               contains "Bias" (name v) = false) /\
    (w == w' / 2)%Q /\
    r = (r' / 2)%R.
Proof.
  intros Hs Hs' Hm Hne Hv.
  assert (Hne' : ~ (max_abs_value hp' == 0)%Q) by now rewrite Hm.
  assert (Hw := reg_weight_value hp Hne).
  assert (Hw' := reg_weight_value hp' Hne').
  rewrite Hs in Hw. rewrite Hs', Hm in Hw'.
  assert (Hr := regularization_loss_value hp all_vars Hw Hv).
  assert (Hr' := regularization_loss_value hp' all_vars Hw' Hv).
  eexists _, _, _, _.
  split; [exact Hw|]. split; [exact Hw'|].
  split; [field; exact Hne|].
  split; [field; exact Hne|].
  split; [exact Hr|]. split; [exact Hr'|].
  split.
  { intros self L HL. apply add_loss_regularization_field in HL.
    rewrite Hr in HL. now injection HL. }
  split; [reflexivity|].
  split.
  { intros v n Hn. apply (l2_loss_half_square Hn). }
  split; [apply weight_vars_spec|].
  split; [field; exact Hne|].
  rewrite (reg_weight_halved Hne). lra.
Qed.

Lemma example_max_abs_nonzero : ~ (max_abs_value Example.hp == 0)%Q.
Proof. intros H. discriminate H. Defined.

Lemma example_has_weight :
  exists v, In v Example.all_vars /\ is_bias v = false.
Proof.
  exists {| name := "inference/embedding:0"; value := [4%R] |}.
  split; [now left | reflexivity].
Defined.

Lemma regularization_loss_weights_witness :
  symmetric_mels Example.hp = true /\
  symmetric_mels Example.hp_asymmetric = false /\
  max_abs_value Example.hp_asymmetric = max_abs_value Example.hp /\
  ~ (max_abs_value Example.hp == 0)%Q /\
  (exists v, In v Example.all_vars /\ is_bias v = false) /\
  exists (w w' : Q) (r r' : R),
    reg_weight Example.hp = Some w /\
    reg_weight Example.hp_asymmetric = Some w' /\
    (w == (1 # 1000000) / (2 * max_abs_value Example.hp))%Q /\
    (w' == (1 # 1000000) / max_abs_value Example.hp)%Q /\
    compute_regularization_loss Example.hp Example.all_vars = Some r /\
    compute_regularization_loss Example.hp_asymmetric Example.all_vars
    = Some r' /\
    (forall self L, add_loss Example.hp Example.all_vars self = Some L ->
                    regularization_loss L = r) /\
    r = (rsum (map (fun v => rsum (map Rsqr (value v)) / 2)
                   (weight_vars Example.all_vars)) * Q2R w)%R /\
    (forall v n, is_l2_norm (value v) n ->
                 (rsum (map Rsqr (value v)) / 2 = n * n / 2)%R) /\
    (forall v, In v (weight_vars Example.all_vars) <->
               In v Example.all_vars /\
               contains "bias" (name v) = false /\
               contains "Bias" (name v) = false) /\
    (w == w' / 2)%Q /\
    r = (r' / 2)%R.
Proof.
  split; [reflexivity|]. split; [reflexivity|]. split; [reflexivity|].
  split; [exact example_max_abs_nonzero|].
  split; [exact example_has_weight|].
  exact (@regularization_loss_weights Example.hp Example.hp_asymmetric
           Example.all_vars eq_refl eq_refl eq_refl
           example_max_abs_nonzero example_has_weight).
Defined.

(** The bias variable of the example is left out, the embedding is kept. *)
Example example_weight_vars :
  map name (weight_vars Example.all_vars) = ["inference/embedding:0"%string].
Proof. reflexivity. Qed.

(** ** The optimizer *)

Lemma map_fst_combine_eq {A B : Type} (a : list A) (b : list B) :
  length a = length b -> map fst (combine a b) = a.
Proof.
  revert b. induction a as [|x a IH]; intros [|y b] H; simpl in *;
    try reflexivity; try discriminate.
  f_equal. apply IH. lia.
Qed.

Lemma map_snd_combine_eq {A B : Type} (a : list A) (b : list B) :
  length a = length b -> map snd (combine a b) = b.
Proof.
  revert b. induction a as [|x a IH]; intros [|y b] H; simpl in *;
    try reflexivity; try discriminate.
  f_equal. apply IH. lia.
Qed.

(** [add_optimizer] returns when the half-life is not zero and there is a
    variable to train; its fields are as the code sets them. *)
Lemma add_optimizer_fields (hp : HParams)
      (compute_gradients : R -> list (option vec * Variable_))
      (self : Losses) (global_step : Z) :
  learning_rate_decay_halflife hp <> 0%Z ->
  compute_gradients (loss self) <> [] ->
  exists o : Optimized,
    add_optimizer hp compute_gradients self global_step = Some o /\
    learning_rate o
    = (Q2R (initial_learning_rate hp)
       * Rpower 0.5 (IZR global_step
                     / IZR (learning_rate_decay_halflife hp)))%R /\
    gradients o = map fst (compute_gradients (loss self)) /\
    map fst (opt_grads_and_vars (optimize o))
    = fst (clip_by_global_norm (gradients o) 1%R) /\
    map snd (opt_grads_and_vars (optimize o))
    = map snd (compute_gradients (loss self)).
Proof.
  intros Hh Hg. unfold add_optimizer, exponential_decay.
  destruct (Z.eqb_spec (learning_rate_decay_halflife hp) 0); [contradiction|].
  destruct (compute_gradients (loss self)) as [|gv l] eqn:E; [contradiction|].
  eexists. split; [reflexivity|]. simpl.
  split; [reflexivity|]. split; [reflexivity|].
  split; f_equal.
  - apply map_fst_combine_eq. now rewrite !length_map.
  - apply map_snd_combine_eq. now rewrite !length_map.
Qed.

(** *** The learning-rate schedule *)

Lemma Rpower_half_succ (x : R) :
  Rpower 0.5 (x + 1) = (Rpower 0.5 x / 2)%R.
Proof. rewrite Rpower_plus, Rpower_1 by lra. lra. Qed.

Lemma Rpower_half_decreasing (x y : R) :
  (x <= y)%R -> (Rpower 0.5 y <= Rpower 0.5 x)%R.
Proof.
  intros Hxy. unfold Rpower.
  assert (Hln : (ln 0.5 < 0)%R).
  { rewrite <- ln_1. apply ln_increasing; lra. }
  destruct (Rle_lt_or_eq_dec _ _ Hxy) as [Hlt|Heq].
  - left. apply exp_increasing. nra.
  - subst y. right. reflexivity.
Qed.

Lemma Rpower_half_pos (x : R) : (0 < Rpower 0.5 x)%R.
Proof. unfold Rpower. apply exp_pos. Qed.

Lemma Q2R_nonneg (q : Q) : (0 <= q)%Q -> (0 <= Q2R q)%R.
Proof.
  intros H. replace 0%R with (Q2R 0) by (unfold Q2R; simpl; lra).
  now apply Qle_Rle.
Qed.

(** C7.  After [add_optimizer(global_step)] the [learning_rate] field is
    [initial_learning_rate * 0.5 ^ (global_step / learning_rate_decay_halflife)]:
    it starts at the initial value, halves every
    [learning_rate_decay_halflife] steps and never increases with
    [global_step]. *)
Theorem add_optimizer_learning_rate (hp : HParams)
        (compute_gradients : R -> list (option vec * Variable_))
        (self : Losses) (global_step : Z) :
  (0 < learning_rate_decay_halflife hp)%Z ->
  (0 <= initial_learning_rate hp)%Q ->
  compute_gradients (loss self) <> [] ->
  exists o : Optimized,
    add_optimizer hp compute_gradients self global_step = Some o /\
    learning_rate o
    = (Q2R (initial_learning_rate hp)
       * Rpower 0.5 (IZR global_step
                     / IZR (learning_rate_decay_halflife hp)))%R /\
    (global_step = 0%Z -> learning_rate o = Q2R (initial_learning_rate hp)) /\
    (exists o' : Optimized,
        add_optimizer hp compute_gradients self
                      (global_step + learning_rate_decay_halflife hp)
        = Some o' /\
        learning_rate o' = (learning_rate o / 2)%R) /\
    (forall later : Z,
        (global_step <= later)%Z ->
        exists o' : Optimized,
          add_optimizer hp compute_gradients self later = Some o' /\
          (learning_rate o' <= learning_rate o)%R).
Proof.
  intros Hh Hi Hg.
  assert (Hh0 : learning_rate_decay_halflife hp <> 0%Z) by lia.
  assert (HhR : (0 < IZR (learning_rate_decay_halflife hp))%R)
    by (now apply IZR_lt).
  destruct (add_optimizer_fields hp compute_gradients self global_step Hh0 Hg)
    as (o & Ho & Hlr & _).
  exists o. split; [exact Ho|]. split; [exact Hlr|]. split; [|split].
  - intros ->. rewrite Hlr. unfold Rdiv. rewrite Rmult_0_l, Rpower_O by lra.
    lra.
  - destruct (add_optimizer_fields hp compute_gradients self
                (global_step + learning_rate_decay_halflife hp) Hh0 Hg)
      as (o' & Ho' & Hlr' & _).
    exists o'. split; [exact Ho'|]. rewrite Hlr', Hlr, plus_IZR.
    replace ((IZR global_step + IZR (learning_rate_decay_halflife hp))
             / IZR (learning_rate_decay_halflife hp))%R
      with (IZR global_step / IZR (learning_rate_decay_halflife hp) + 1)%R
      by (field; lra).
    rewrite Rpower_half_succ. lra.
  - intros later Hle.
    destruct (add_optimizer_fields hp compute_gradients self later Hh0 Hg)
      as (o' & Ho' & Hlr' & _).
    exists o'. split; [exact Ho'|]. rewrite Hlr', Hlr.
    apply Rmult_le_compat_l; [now apply Q2R_nonneg|].
    apply Rpower_half_decreasing.
    apply Rmult_le_compat_r; [left; now apply Rinv_0_lt_compat|].
    now apply IZR_le.
Qed.

Lemma example_has_gradients :
  Example.compute_gradients (loss Example.losses) <> [].
Proof. discriminate. Defined.

Lemma add_optimizer_learning_rate_witness :
  (0 < learning_rate_decay_halflife Example.hp)%Z /\
  (0 <= initial_learning_rate Example.hp)%Q /\
  Example.compute_gradients (loss Example.losses) <> [] /\
  exists o : Optimized,
    add_optimizer Example.hp Example.compute_gradients Example.losses 50000
    = Some o /\
    learning_rate o
    = (Q2R (initial_learning_rate Example.hp)
       * Rpower 0.5 (IZR 50000
                     / IZR (learning_rate_decay_halflife Example.hp)))%R /\
    (50000%Z = 0%Z -> learning_rate o = Q2R (initial_learning_rate Example.hp)) /\
    (exists o' : Optimized,
        add_optimizer Example.hp Example.compute_gradients Example.losses
                      (50000 + learning_rate_decay_halflife Example.hp)
        = Some o' /\
        learning_rate o' = (learning_rate o / 2)%R) /\
    (forall later : Z,
        (50000 <= later)%Z ->
        exists o' : Optimized,
          add_optimizer Example.hp Example.compute_gradients Example.losses
                        later = Some o' /\
          (learning_rate o' <= learning_rate o)%R).
Proof.
  assert (H1 : (0 < learning_rate_decay_halflife Example.hp)%Z)
    by reflexivity.
  assert (H2 : (0 <= initial_learning_rate Example.hp)%Q)
    by (intros H; discriminate H).
  split; [exact H1|]. split; [exact H2|].
  split; [exact example_has_gradients|].
  exact (@add_optimizer_learning_rate Example.hp Example.compute_gradients
           Example.losses 50000 H1 H2 example_has_gradients).
Defined.

(** *** Clipping by global norm *)







Lemma example_halflife_nonzero :
  learning_rate_decay_halflife Example.hp <> 0%Z.
Proof. discriminate. Defined.


(** C10.  After [add_optimizer] the [gradients] field holds the gradients
    as [compute_gradients] returned them for the total loss, unclipped; the
    update operation [optimize] applies the clipped gradients, paired with
    the same variables. *)
Theorem add_optimizer_gradients_field (hp : HParams)
        (compute_gradients : R -> list (option vec * Variable_))
        (self : Losses) (global_step : Z) :
  learning_rate_decay_halflife hp <> 0%Z ->
  compute_gradients (loss self) <> [] ->
  exists o : Optimized,
    add_optimizer hp compute_gradients self global_step = Some o /\
    gradients o = map fst (compute_gradients (loss self)) /\
    map fst (opt_grads_and_vars (optimize o))
    = fst (clip_by_global_norm (gradients o) 1%R) /\
    map snd (opt_grads_and_vars (optimize o))
    = map snd (compute_gradients (loss self)).
Proof.
  intros Hh Hg.
  destruct (add_optimizer_fields hp compute_gradients self global_step Hh Hg)
    as (o & Ho & _ & Hgr & Hfst & Hsnd).
  exists o. auto.
Qed.

Lemma add_optimizer_gradients_field_witness :
  learning_rate_decay_halflife Example.hp <> 0%Z /\
  Example.compute_gradients (loss Example.losses) <> [] /\
  exists o : Optimized,
    add_optimizer Example.hp Example.compute_gradients Example.losses 7
    = Some o /\
    gradients o = map fst (Example.compute_gradients (loss Example.losses)) /\
    map fst (opt_grads_and_vars (optimize o))
    = fst (clip_by_global_norm (gradients o) 1%R) /\
    map snd (opt_grads_and_vars (optimize o))
    = map snd (Example.compute_gradients (loss Example.losses)).
Proof.
  split; [exact example_halflife_nonzero|].
  split; [exact example_has_gradients|].
  exact (@add_optimizer_gradients_field Example.hp Example.compute_gradients
           Example.losses 7 example_halflife_nonzero example_has_gradients).
Defined.

(** In the example the computed gradient [[3; 4]] has global norm 5: the
    [gradients] field keeps [[3; 4]] while [[0.6; 0.8]] is applied, and the
    variable without gradient keeps [None]. *)
Example example_global_norm :
  global_norm [Some [3%R; 4%R]; None] = 5%R.
Proof.
  unfold global_norm, sum_squares. simpl.
  replace (3² + (4² + 0) + (0 + 0))%R with (Rsqr 5) by (unfold Rsqr; lra).
  apply sqrt_Rsqr. lra.
Qed.

Example example_gradients_kept_and_clipped :
  exists o : Optimized,
    add_optimizer Example.hp Example.compute_gradients Example.losses 7
    = Some o /\
    gradients o = [Some [3%R; 4%R]; None] /\
    map fst (opt_grads_and_vars (optimize o))
    = [Some [0.6%R; 0.8%R]; None].
Proof.
  eexists. split; [reflexivity|]. split; [reflexivity|].
  cbn [optimize opt_grads_and_vars]. rewrite map_fst_combine_eq.
  - unfold clip_by_global_norm. cbn [fst map Example.compute_gradients].
    rewrite example_global_norm. rewrite Rmax_left by lra.
    cbn [map option_map]. repeat f_equal; lra.
  - reflexivity.
Qed.

(** ** [initialize]: mode, decode loop and shapes *)

Lemma has_shape_tabulate (N T F : nat) (g : nat * nat * nat -> R) :
  has_shape N T F (tabulate N T F g).
Proof.
  unfold has_shape, tabulate. split; [now rewrite length_map, length_seq|].
  apply Forall_forall. intros m Hm. apply in_map_iff in Hm.
  destruct Hm as [n [<- _]]. split; [now rewrite length_map, length_seq|].
  apply Forall_forall. intros r Hr. apply in_map_iff in Hr.
  destruct Hr as [t [<- _]]. now rewrite length_map, length_seq.
Qed.

Lemma num_elements_shape (N T F : nat) (x : tensor3) :
  has_shape N T F x -> length (flatten3 x) = N * T * F.
Proof.
  intros H. rewrite (tabulate_get H), flatten_tabulate, length_map.
  apply length_entries.
Qed.

Lemma tf_add_shape (N T F : nat) (a b : tensor3) :
  has_shape N T F a -> has_shape N T F b ->
  exists c, tf_add a b = Some c /\ has_shape N T F c.
Proof.
  intros Ha Hb. unfold tf_add.
  rewrite (tabulate_get Ha), (tabulate_get Hb).
  rewrite same_shape3_tabulate, zip3_tabulate.
  eexists. split; [reflexivity | apply has_shape_tabulate].
Qed.

Lemma reshape_infer_shape (N S D M r : nat) (x : tensor3) :
  has_shape N S D x -> D = M * r -> 0 < N -> 0 < M ->
  exists y, reshape_infer x N M = Some y /\ has_shape N (S * r) M y.
Proof.
  intros Hx -> HN HM. unfold reshape_infer.
  rewrite (num_elements_shape Hx).
  assert (Hnm : N * M <> 0) by nia.
  destruct (Nat.eqb_spec (N * M) 0); [contradiction|].
  replace (N * S * (M * r)) with (S * r * (N * M)) by ring.
  rewrite Nat.Div0.mod_mul, Nat.div_mul by exact Hnm. simpl.
  eexists. split; [reflexivity | apply has_shape_tabulate].
Qed.

Section DecodeLoop.

Variable State : Type.
Variable decoder : BasicDecoder State.
Variable maximum_iterations : nat.

(** The loop adds at most [fuel] outputs. *)
Lemma decode_loop_length (fuel time : nat) (inp : mat) (st : State)
      (finished : list bool) (acc : list mat) :
  length (fst (decode_loop decoder maximum_iterations fuel time inp st
                           finished acc))
  <= fuel + length acc.
Proof.
  revert time inp st finished acc.
  induction fuel as [|fuel IH]; intros time inp st finished acc; simpl.
  - now rewrite length_rev.
  - destruct (forallb (fun b => b) finished).
    + simpl. rewrite length_rev. lia.
    + destruct (cell decoder inp st) as [out st'].
      destruct (helper_next_inputs (helper decoder) time out) as [fin nxt].
      etransitivity; [apply IH|]. simpl. lia.
Qed.

Variable N : nat.
Variable ok : mat -> Prop.
Hypothesis cell_ok : forall inp st, length inp = N -> ok (fst (cell decoder inp st)).
Hypothesis ok_rows : forall o, ok o -> length o = N.
Hypothesis feeds : helper_feeds N (helper decoder).

(** Every output of the loop is an output of the cell on [N] input rows. *)
Lemma decode_loop_outputs (fuel time : nat) (inp : mat) (st : State)
      (finished : list bool) (acc : list mat) :
  length inp = N -> Forall ok acc ->
  Forall ok (fst (decode_loop decoder maximum_iterations fuel time inp st
                              finished acc)).
Proof.
  revert time inp st finished acc.
  induction fuel as [|fuel IH]; intros time inp st finished acc Hin Hacc;
    simpl.
  - now apply Forall_rev.
  - destruct (forallb (fun b => b) finished).
    + simpl. now apply Forall_rev.
    + pose proof (@cell_ok inp st Hin) as Hout.
      destruct (cell decoder inp st) as [out st'].
      pose proof (proj2 feeds time out (ok_rows Hout)) as Hnxt.
      destruct (helper_next_inputs (helper decoder) time out) as [fin nxt].
      apply IH; [exact Hnxt | constructor; assumption].
Qed.

Lemma dynamic_decode_steps_bound :
  length (fst (dynamic_decode_steps decoder maximum_iterations))
  <= maximum_iterations.
Proof.
  unfold dynamic_decode_steps.
  destruct (helper_initialize (helper decoder)) as [fin inp].
  etransitivity; [apply decode_loop_length|]. simpl. lia.
Qed.

Lemma dynamic_decode_steps_outputs :
  Forall ok (fst (dynamic_decode_steps decoder maximum_iterations)).
Proof.
  unfold dynamic_decode_steps.
  pose proof (proj1 feeds) as Hin.
  destruct (helper_initialize (helper decoder)) as [fin inp].
  apply decode_loop_outputs; [exact Hin | constructor].
Qed.

End DecodeLoop.

(** The stacked outputs of [dynamic_decode] have shape
    [[N; steps; D]] when every step output has shape [[N; D]]. *)
Lemma dynamic_decode_shape (State : Type) (decoder : BasicDecoder State)
      (maximum_iterations N D : nat) :
  Forall (fun o : mat => length o = N /\ Forall (fun r : vec => length r = D) o)
         (fst (dynamic_decode_steps decoder maximum_iterations)) ->
  has_shape N (length (fst (dynamic_decode_steps decoder maximum_iterations)))
            D
            (fst (dynamic_decode decoder maximum_iterations N)).
Proof.
  intros Hall. unfold dynamic_decode.
  destruct (dynamic_decode_steps decoder maximum_iterations) as [outs st].
  simpl in *. split; [now rewrite length_map, length_seq|].
  apply Forall_forall. intros m Hm. apply in_map_iff in Hm.
  destruct Hm as [n [<- Hn]]. apply in_seq in Hn.
  split; [now rewrite length_map|].
  apply Forall_forall. intros r Hr. apply in_map_iff in Hr.
  destruct Hr as [o [<- Ho]].
  rewrite Forall_forall in Hall. destruct (Hall _ Ho) as [HoN HoD].
  rewrite Forall_forall in HoD. apply HoD. apply nth_In. lia.
Qed.

(** [initialize] returns, and its outputs have [decode_steps *
    outputs_per_step] frames. *)
Lemma initialize_shapes (net : Network) (helpers : Helpers) (hp : HParams)
      (inputs : list (list Z)) (input_lengths : list Z)
      (mel lin : option tensor3) (h : Helper) :
  0 < length inputs -> 0 < num_mels hp ->
  network_contract net hp (length inputs) ->
  make_helper helpers hp inputs mel lin = Some h ->
  helper_feeds (length inputs) h ->
  let steps := decode_steps net hp inputs input_lengths (is_training lin) h in
  let T_out := steps * outputs_per_step hp in
  exists self : Initialized,
    initialize net helpers hp inputs input_lengths mel lin = Some self /\
    steps <= max_iters hp /\
    has_shape (length inputs) T_out (num_mels hp) (decoder_outputs self) /\
    has_shape (length inputs) T_out (num_mels hp) (mel_outputs self) /\
    has_shape (length inputs) T_out (num_freq hp) (linear_outputs self) /\
    mel_targets self = mel /\ linear_targets self = lin.
Proof.
  intros HN HM [Hcell Hpost Hexp] Hh Hfeeds steps T_out.
  unfold initialize. rewrite Hh.
  fold (decoder_of net hp inputs input_lengths (is_training lin) h).
  set (dec := decoder_of net hp inputs input_lengths (is_training lin) h).
  assert (Hout : Forall (fun o : mat =>
                           length o = length inputs /\
                           Forall (fun r : vec =>
                                     length r
                                     = num_mels hp * outputs_per_step hp) o)
                        (fst (dynamic_decode_steps dec (max_iters hp)))).
  { apply dynamic_decode_steps_outputs with (N := length inputs).
    - intros inp st Hin. apply Hcell. exact Hin.
    - intros o Ho. apply Ho.
    - exact Hfeeds. }
  pose proof (dynamic_decode_shape dec (max_iters hp) Hout) as Hshape.
  pose proof (dynamic_decode_steps_bound dec (max_iters hp)) as Hbound.
  fold (decode_steps net hp inputs input_lengths (is_training lin) h)
    in Hshape, Hbound.
  fold steps in Hshape, Hbound.
  destruct (dynamic_decode dec (max_iters hp) (length inputs))
    as [multi final] eqn:Edec.
  simpl in Hshape.
  destruct (@reshape_infer_shape _ _ _ _ (outputs_per_step hp) _
              Hshape eq_refl HN HM)
    as (dout & Hre & Hdout).
  rewrite Hre.
  destruct (tf_add_shape Hdout
              (Hpost dout T_out (is_training lin) Hdout))
    as (mout & Hadd & Hmout).
  rewrite Hadd.
  eexists. split; [reflexivity|]. simpl.
  split; [exact Hbound|]. split; [exact Hdout|]. split; [exact Hmout|].
  split; [|split; reflexivity].
  apply Hexp. exact Hmout.
Qed.

(** *** The example network meets the contracts *)

Lemma has_shape_time_steps (N T F : nat) (x : tensor3) :
  0 < N -> has_shape N T F x -> time_steps x = T.
Proof.
  intros HN [Hlen Hall]. destruct x as [|item x]; simpl in *; [lia|].
  inversion Hall as [|? ? [HT _] _]. exact HT.
Qed.

Lemma has_shape_map_rows (N T F F' : nat) (f : vec -> vec) (x : tensor3) :
  (forall r, length r = F -> length (f r) = F') ->
  has_shape N T F x -> has_shape N T F' (map (map f) x).
Proof.
  intros Hf [Hlen Hall]. split; [now rewrite length_map|].
  apply Forall_forall. intros m Hm. apply in_map_iff in Hm.
  destruct Hm as [m0 [<- Hm0]]. rewrite Forall_forall in Hall.
  destruct (Hall _ Hm0) as [HT HF]. split; [now rewrite length_map|].
  apply Forall_forall. intros r Hr. apply in_map_iff in Hr.
  destruct Hr as [r0 [<- Hr0]]. rewrite Forall_forall in HF. auto.
Qed.

Lemma example_contract (N : nat) : network_contract Example.net Example.hp N.
Proof.
  constructor.
  - intros training enc inp st Hin. simpl. split.
    + now rewrite length_map.
    + apply Forall_forall. intros r Hr. apply in_map_iff in Hr.
      destruct Hr as [r0 [<- _]]. reflexivity.
  - intros x T training Hx. simpl. unfold map3.
    apply (has_shape_map_rows (F := 1)); [|exact Hx].
    intros r Hr. now rewrite length_map.
  - intros x T training Hx. simpl.
    apply (has_shape_map_rows (F := 1)); [|exact Hx].
    intros r Hr. reflexivity.
Qed.

Lemma test_helper_feeds (p : vec -> bool) (N M r : nat) :
  helper_feeds N (TacoTestHelper_spec p N M r).
Proof.
  split; simpl.
  - apply repeat_length.
  - intros time outputs Hout. now rewrite length_map.
Qed.

Lemma training_helper_feeds (inputs : list (list Z)) (tg : tensor3)
      (M r : nat) (h : Helper) :
  length tg = length inputs ->
  TacoTrainingHelper_spec inputs (Some tg) M r = Some h ->
  helper_feeds (length inputs) h.
Proof.
  intros Hlen Hh. injection Hh as Hh. subst h. split; simpl.
  - apply repeat_length.
  - intros time outputs _. now rewrite length_map.
Qed.

(** *** Mode selection *)

(** C2, as stated, fails: with [mel_targets] given and [linear_targets]
    left out the targets are not absent, yet [initialize] runs in inference
    mode. *)
Lemma mode_ignores_mel_targets :
  ~ (forall mel lin : option tensor3,
        (is_training lin = true <-> targets_supplied mel lin) /\
        (is_training lin = false <-> targets_absent mel lin)).
Proof.
  intros H. destruct (H (Some Example.mt) None) as [_ [Hinf _]].
  destruct (Hinf eq_refl) as [Hmel _]. discriminate Hmel.
Qed.

(** C2, amended.  [initialize] runs in training mode (teacher-forcing
    helper fed with [mel_targets], every component built with
    [is_training = True]) exactly when [linear_targets] is given, and in
    inference mode (autoregressive helper, [is_training = False]) exactly
    when [linear_targets] is left out, whatever [mel_targets] is; when both
    targets are given, or none, this is the mode the targets call for. *)
Theorem initialize_mode (net : Network) (helpers : Helpers) (hp : HParams)
        (inputs : list (list Z)) (input_lengths : list Z)
        (mel lin : option tensor3) :
  (is_training lin = true <-> lin <> None) /\
  (is_training lin = false <-> lin = None) /\
  (lin <> None ->
   make_helper helpers hp inputs mel lin
   = TacoTrainingHelper helpers inputs mel
                        (num_mels hp) (outputs_per_step hp)) /\
  (lin = None ->
   make_helper helpers hp inputs mel lin
   = Some (TacoTestHelper helpers (length inputs)
                          (num_mels hp) (outputs_per_step hp))) /\
  initialize net helpers hp inputs input_lengths mel lin
  = initialize (force_mode (is_training lin) net) helpers hp
               inputs input_lengths mel lin /\
  (targets_supplied mel lin -> is_training lin = true) /\
  (targets_absent mel lin -> is_training lin = false).
Proof.
  unfold make_helper, targets_supplied, targets_absent.
  destruct lin as [l|]; simpl; repeat split;
    try congruence; try reflexivity; try tauto.
  all: intros [_ H]; congruence.
Qed.

(** *** Inference: the decode loop is bounded *)

(** C4.  [initialize] called without targets returns, and the time
    dimension [T_out] of [mel_outputs] is at most
    [max_iters * outputs_per_step]: the decode loop makes at most
    [max_iters] steps, whatever the helper decides, and each step emits
    [outputs_per_step] mel frames. *)
Theorem initialize_inference_bound (net : Network) (helpers : Helpers)
        (hp : HParams) (inputs : list (list Z)) (input_lengths : list Z) :
  0 < length inputs -> 0 < num_mels hp ->
  network_contract net hp (length inputs) ->
  helper_feeds (length inputs)
               (TacoTestHelper helpers (length inputs) (num_mels hp)
                               (outputs_per_step hp)) ->
  exists (self : Initialized) (steps : nat),
    initialize net helpers hp inputs input_lengths None None = Some self /\
    steps <= max_iters hp /\
    has_shape (length inputs) (steps * outputs_per_step hp) (num_mels hp)
              (mel_outputs self) /\
    time_steps (mel_outputs self) = steps * outputs_per_step hp /\
    time_steps (mel_outputs self) <= max_iters hp * outputs_per_step hp.
Proof.
  intros HN HM Hnet Hfeeds.
  destruct (@initialize_shapes net helpers hp inputs input_lengths None None
              _ HN HM Hnet eq_refl Hfeeds)
    as (self & Hinit & Hsteps & _ & Hmel & _).
  eexists self, _. split; [exact Hinit|]. split; [exact Hsteps|].
  split; [exact Hmel|].
  rewrite (has_shape_time_steps HN Hmel).
  split; [reflexivity|]. now apply Nat.mul_le_mono_r.
Qed.

Lemma initialize_inference_bound_witness :
  0 < length Example.text /\ 0 < num_mels Example.hp /\
  network_contract Example.net Example.hp (length Example.text) /\
  helper_feeds (length Example.text)
               (TacoTestHelper Example.helpers (length Example.text)
                               (num_mels Example.hp)
                               (outputs_per_step Example.hp)) /\
  exists (self : Initialized) (steps : nat),
    initialize Example.net Example.helpers Example.hp Example.text
               Example.text_lengths None None = Some self /\
    steps <= max_iters Example.hp /\
    has_shape (length Example.text) (steps * outputs_per_step Example.hp)
              (num_mels Example.hp) (mel_outputs self) /\
    time_steps (mel_outputs self) = steps * outputs_per_step Example.hp /\
    time_steps (mel_outputs self)
    <= max_iters Example.hp * outputs_per_step Example.hp.
Proof.
  assert (H1 : 0 < length Example.text) by (simpl; lia).
  assert (H2 : 0 < num_mels Example.hp) by (simpl; lia).
  split; [exact H1|]. split; [exact H2|].
  split; [exact (example_contract _)|].
  split; [exact (test_helper_feeds _ _ _ _)|].
  exact (@initialize_inference_bound Example.net Example.helpers Example.hp
           Example.text Example.text_lengths H1 H2 (example_contract _)
           (test_helper_feeds _ _ _ _)).
Defined.

(** The example's test helper never stops: the loop runs the full
    [max_iters = 3] steps and [mel_outputs] has [3 * 2 = 6] frames. *)
Example example_inference_length :
  option_map (fun self => time_steps (mel_outputs self))
             (initialize Example.net Example.helpers Example.hp Example.text
                         Example.text_lengths None None)
  = Some 6.
Proof. reflexivity. Qed.

(** *** Training: the number of decode steps *)

Lemma forallb_id_repeat (b : bool) (N : nat) :
  0 < N -> forallb (fun x => x) (repeat b N) = b.
Proof.
  intros HN. destruct N as [|N]; [lia|]. clear HN.
  induction N as [|N IH].
  - simpl. apply andb_true_r.
  - change (b && forallb (fun x => x) (repeat b (S N)) = b).
    rewrite IH. apply andb_diag.
Qed.

Lemma zip_with_orb_repeat_false (a : bool) (N : nat) :
  zip_with orb (repeat a N) (repeat false N) = repeat a N.
Proof.
  induction N as [|N IH]; simpl; [reflexivity|].
  now rewrite IH, orb_false_r.
Qed.

Section TrainingLoop.

Variable State : Type.
Variable decoder : BasicDecoder State.
Variable maximum_iterations N num_steps : nat.
Variable feed : nat -> mat.

Hypothesis batch_pos : 0 < N.
Hypothesis training_helper :
  helper_next_inputs (helper decoder)
  = fun time _ => (repeat (num_steps <=? time + 1) N, feed time).

(** The flags of the loop at [time] are the helper's, or the iteration
    cap. *)
Lemma training_loop_length (fuel time : nat) (inp : mat) (st : State)
      (acc : list mat) :
  fuel + time = maximum_iterations ->
  length (fst (decode_loop decoder maximum_iterations fuel time inp st
                           (repeat ((num_steps <=? time)
                                    || (maximum_iterations <=? time)) N)
                           acc))
  = length acc + (Nat.min num_steps maximum_iterations - time).
Proof.
  revert time inp st acc.
  induction fuel as [|fuel IH]; intros time inp st acc Hfuel; simpl.
  - rewrite length_rev. lia.
  - rewrite (forallb_id_repeat _ batch_pos).
    destruct ((num_steps <=? time) || (maximum_iterations <=? time))
             eqn:Hflag.
    + simpl. rewrite length_rev.
      apply orb_true_iff in Hflag.
      destruct Hflag as [H|H]; apply Nat.leb_le in H; lia.
    + apply orb_false_iff in Hflag.
      destruct Hflag as [H1 H2].
      apply Nat.leb_gt in H1. apply Nat.leb_gt in H2.
      destruct (cell decoder inp st) as [out st'].
      rewrite training_helper.
      rewrite zip_with_orb_repeat_false, map_repeat.
      replace (time + 1) with (S time) by lia.
      rewrite IH by lia. simpl. lia.
Qed.

End TrainingLoop.

Lemma training_decode_steps (net : Network) (hp : HParams)
      (inputs : list (list Z)) (input_lengths : list Z) (training : bool)
      (tg : tensor3) (M r : nat) (h : Helper) :
  0 < length inputs ->
  TacoTrainingHelper_spec inputs (Some tg) M r = Some h ->
  decode_steps net hp inputs input_lengths training h
  = Nat.min (ceil_div (time_steps tg) r) (max_iters hp).
Proof.
  intros HN Hh. injection Hh as Hh. subst h.
  unfold decode_steps, dynamic_decode_steps. simpl.
  rewrite map_repeat.
  rewrite training_loop_length
    with (num_steps := ceil_div (time_steps tg) r)
         (feed := fun time =>
                    map (fun item : mat =>
                           nth ((time + 1) * r) item (repeat 0%R M)) tg).
  - simpl. lia.
  - exact HN.
  - reflexivity.
  - lia.
Qed.

Lemma round_up_bounds (n r : nat) :
  0 < r -> n <= round_up n r < n + r /\ round_up n r mod r = 0.
Proof.
  intros Hr. unfold round_up, ceil_div.
  pose proof (Nat.div_mod_eq (n + r - 1) r) as E.
  pose proof (Nat.mod_upper_bound (n + r - 1) r ltac:(lia)) as Hm.
  split; [nia|]. apply Nat.Div0.mod_mul.
Qed.

(** C5, as stated, fails: the decode loop is capped at [max_iters] steps
    in training too.  With targets of 9 frames, [outputs_per_step = 2] and
    [max_iters = 3] the outputs have 6 frames, not the 10 that round 9 up
    to a multiple of 2. *)
Lemma training_length_capped :
  ~ (forall (net : Network) (helpers : Helpers) (hp : HParams)
            (inputs : list (list Z)) (input_lengths : list Z)
            (mt lt : tensor3) (T : nat),
        TacoTrainingHelper helpers = TacoTrainingHelper_spec ->
        0 < length inputs -> 0 < num_mels hp -> 0 < outputs_per_step hp ->
        network_contract net hp (length inputs) ->
        has_shape (length inputs) T (num_mels hp) mt ->
        has_shape (length inputs) T (num_freq hp) lt ->
        exists self : Initialized,
          initialize net helpers hp inputs input_lengths (Some mt) (Some lt)
          = Some self /\
          has_shape (length inputs) (round_up T (outputs_per_step hp))
                    (num_mels hp) (mel_outputs self) /\
          has_shape (length inputs) (round_up T (outputs_per_step hp))
                    (num_freq hp) (linear_outputs self)).
Proof.
  intros H.
  destruct (H Example.net Example.helpers Example.hp Example.text
              Example.text_lengths Example.mel9 Example.lin9 9)
    as (self & Hinit & Hmel & _).
  - reflexivity.
  - simpl; lia.
  - simpl; lia.
  - simpl; lia.
  - apply example_contract.
  - split; [reflexivity|]. repeat constructor.
  - split; [reflexivity|]. repeat constructor.
  - assert (Hlen : option_map (fun s => time_steps (mel_outputs s))
                              (initialize Example.net Example.helpers
                                          Example.hp Example.text
                                          Example.text_lengths
                                          (Some Example.mel9)
                                          (Some Example.lin9))
                   = Some 6) by reflexivity.
    rewrite Hinit in Hlen. simpl in Hlen.
    rewrite (@has_shape_time_steps 1 _ _ _ ltac:(lia) Hmel) in Hlen.
    discriminate Hlen.
Qed.

(** C5, amended.  With the teacher-forcing helper of the spec, [initialize]
    called with [mel_targets] of [T] frames and [linear_targets] returns
    [mel_outputs] of shape [[N; T_out; num_mels]] and [linear_outputs] of
    shape [[N; T_out; num_freq]], where
    [T_out = min(ceil(T / outputs_per_step), max_iters) * outputs_per_step];
    when [ceil(T / outputs_per_step) <= max_iters] this is [T] rounded up to
    a multiple of [outputs_per_step]. *)
Theorem initialize_training_shapes (net : Network) (helpers : Helpers)
        (hp : HParams) (inputs : list (list Z)) (input_lengths : list Z)
        (mt lt : tensor3) (T : nat) :
  TacoTrainingHelper helpers = TacoTrainingHelper_spec ->
  0 < length inputs -> 0 < num_mels hp -> 0 < outputs_per_step hp ->
  network_contract net hp (length inputs) ->
  has_shape (length inputs) T (num_mels hp) mt ->
  exists self : Initialized,
    initialize net helpers hp inputs input_lengths (Some mt) (Some lt)
    = Some self /\
    let r := outputs_per_step hp in
    let T_out := Nat.min (ceil_div T r) (max_iters hp) * r in
    has_shape (length inputs) T_out (num_mels hp) (mel_outputs self) /\
    has_shape (length inputs) T_out (num_freq hp) (linear_outputs self) /\
    (ceil_div T r <= max_iters hp -> T_out = round_up T r) /\
    T <= round_up T r < T + r /\
    round_up T r mod r = 0.
Proof.
  intros Hspec HN HM Hr Hnet Hmt.
  assert (Hh : make_helper helpers hp inputs (Some mt) (Some lt)
               = TacoTrainingHelper_spec inputs (Some mt) (num_mels hp)
                                         (outputs_per_step hp)).
  { unfold make_helper. simpl. now rewrite Hspec. }
  destruct (TacoTrainingHelper_spec inputs (Some mt) (num_mels hp)
                                    (outputs_per_step hp))
    as [h|] eqn:Eh; [|discriminate Eh].
  assert (Hfeeds : helper_feeds (length inputs) h).
  { apply (training_helper_feeds (proj1 Hmt) Eh). }
  destruct (@initialize_shapes net helpers hp inputs input_lengths
              (Some mt) (Some lt) h HN HM Hnet Hh Hfeeds)
    as (self & Hinit & _ & _ & Hmel & Hlin & _).
  rewrite (training_decode_steps net hp input_lengths (is_training (Some lt))
                                 HN Eh) in Hmel, Hlin.
  rewrite (has_shape_time_steps HN Hmt) in Hmel, Hlin.
  exists self. split; [exact Hinit|]. simpl.
  split; [exact Hmel|]. split; [exact Hlin|].
  split.
  - intros Hle. unfold round_up. now rewrite Nat.min_l.
  - apply round_up_bounds. exact Hr.
Qed.

Lemma initialize_training_shapes_witness :
  TacoTrainingHelper Example.helpers = TacoTrainingHelper_spec /\
  0 < length Example.text /\ 0 < num_mels Example.hp /\
  0 < outputs_per_step Example.hp /\
  network_contract Example.net Example.hp (length Example.text) /\
  has_shape (length Example.text) 5 (num_mels Example.hp) Example.mel5 /\
  exists self : Initialized,
    initialize Example.net Example.helpers Example.hp Example.text
               Example.text_lengths (Some Example.mel5) (Some Example.lin5)
    = Some self /\
    let r := outputs_per_step Example.hp in
    let T_out := Nat.min (ceil_div 5 r) (max_iters Example.hp) * r in
    has_shape (length Example.text) T_out (num_mels Example.hp)
              (mel_outputs self) /\
    has_shape (length Example.text) T_out (num_freq Example.hp)
              (linear_outputs self) /\
    (ceil_div 5 r <= max_iters Example.hp -> T_out = round_up 5 r) /\
    5 <= round_up 5 r < 5 + r /\
    round_up 5 r mod r = 0.
Proof.
  assert (H1 : 0 < length Example.text) by (simpl; lia).
  assert (H2 : 0 < num_mels Example.hp) by (simpl; lia).
  assert (H3 : 0 < outputs_per_step Example.hp) by (simpl; lia).
  assert (H4 : has_shape (length Example.text) 5 (num_mels Example.hp)
                         Example.mel5).
  { split; [reflexivity|]. repeat constructor. }
  split; [reflexivity|]. split; [exact H1|]. split; [exact H2|].
  split; [exact H3|]. split; [exact (example_contract _)|].
  split; [exact H4|].
  exact (@initialize_training_shapes Example.net Example.helpers Example.hp
           Example.text Example.text_lengths Example.mel5 Example.lin5 5
           eq_refl H1 H2 H3 (example_contract _) H4).
Defined.

(** Five target frames with [outputs_per_step = 2]: three decode steps,
    six output frames. *)
Example example_training_length :
  option_map (fun self => time_steps (mel_outputs self))
             (initialize Example.net Example.helpers Example.hp Example.text
                         Example.text_lengths (Some Example.mel5)
                         (Some Example.lin5))
  = Some 6.
Proof. reflexivity. Qed.

(** ** Attention alignments *)

Module AttentionFacts.

Import Attention.

Lemma rsum_map_div (z : R) (l : vec) :
  rsum (map (fun x => x / z)%R l) = (rsum l / z)%R.
Proof.
  induction l as [|x l IH]; simpl.
  - unfold Rdiv. ring.
  - rewrite IH. unfold Rdiv. ring.
Qed.

Lemma rsum_app (l1 l2 : vec) : rsum (l1 ++ l2) = (rsum l1 + rsum l2)%R.
Proof.
  induction l1 as [|x l1 IH]; simpl; [lra|]. rewrite IH. lra.
Qed.

Lemma rsum_exp_pos (e : vec) : e <> [] -> (0 < rsum (map exp e))%R.
Proof.
  intros He. destruct e as [|x e]; [contradiction|]. clear He. simpl.
  assert (H : (0 <= rsum (map exp e))%R).
  { induction e as [|y e IH]; simpl; [lra|].
    pose proof (exp_pos y). lra. }
  pose proof (exp_pos x). lra.
Qed.

Lemma softmax_length (e : vec) : length (softmax e) = length e.
Proof. unfold softmax. apply length_map. Qed.

Lemma softmax_sum (e : vec) : e <> [] -> rsum (softmax e) = 1%R.
Proof.
  intros He. unfold softmax.
  rewrite <- (map_map exp (fun y => y / rsum (map exp e))%R).
  rewrite rsum_map_div. field.
  pose proof (rsum_exp_pos He). lra.
Qed.

Lemma softmax_pos (e : vec) : e <> [] -> Forall (fun x => 0 < x)%R (softmax e).
Proof.
  intros He. unfold softmax. apply Forall_forall. intros y Hy.
  apply in_map_iff in Hy. destruct Hy as [x [<- _]].
  apply Rdiv_lt_0_compat; [apply exp_pos | now apply rsum_exp_pos].
Qed.

Lemma zip_with_length {A B C : Type} (f : A -> B -> C) (a : list A)
      (b : list B) :
  length a = length b -> length (zip_with f a b) = length a.
Proof.
  revert b. induction a as [|x a IH]; intros [|y b] H; simpl in *;
    try reflexivity; try discriminate.
  f_equal. apply IH. lia.
Qed.

Lemma nth_zip_with_plus (a b : vec) (i : nat) :
  length a = length b ->
  nth i (zip_with Rplus a b) 0%R = (nth i a 0 + nth i b 0)%R.
Proof.
  revert b i. induction a as [|x a IH]; intros [|y b] i H; simpl in *;
    try discriminate.
  - destruct i; lra.
  - destruct i; [reflexivity|]. apply IH. lia.
Qed.

(** [sum_alignments] is the sum position by position. *)
Lemma sum_alignments_nth (T_in : nat) (l : list vec) (i : nat) :
  Forall (fun a => length a = T_in) l ->
  length (sum_alignments T_in l) = T_in /\
  nth i (sum_alignments T_in l) 0%R
  = rsum (map (fun a : vec => nth i a 0%R) l).
Proof.
  unfold sum_alignments. intros Hl.
  induction l as [|a l IH] using rev_ind.
  - simpl. split; [apply repeat_length|].
    destruct (Nat.lt_ge_cases i T_in).
    + now rewrite nth_repeat_lt.
    + apply nth_overflow. now rewrite repeat_length.
  - apply Forall_app in Hl. destruct Hl as [Hl Ha].
    inversion Ha as [|? ? Hlen _]; subst.
    destruct (IH Hl) as [IHlen IHnth].
    rewrite fold_left_app. simpl. split.
    + rewrite zip_with_length; [exact IHlen | now rewrite IHlen].
    + rewrite nth_zip_with_plus by (now rewrite IHlen).
      rewrite IHnth, map_app, rsum_app. simpl. lra.
Qed.

Section Run.

Variable Query : Type.
Variable memory : mat.
Variable energies : Query -> mat -> vec -> vec.

Hypothesis positions : 0 < length memory.
Hypothesis energies_length :
  forall q c, length c = length memory ->
              length (energies q memory c) = length memory.

Lemma invariant_zero : invariant memory 0 (zero_state memory).
Proof.
  unfold invariant, zero_state. simpl.
  split; [apply repeat_length|]. split; [reflexivity|].
  split; [constructor | reflexivity].
Qed.

Lemma invariant_step (n : nat) (s : State) (q : Query) :
  invariant memory n s -> invariant memory (S n) (step memory energies s q).
Proof.
  intros (Hc & Hn & Hall & Hsum). unfold invariant, step. simpl.
  set (e := energies q memory (cumulative s)).
  assert (He : length e = length memory) by (now apply energies_length).
  assert (Hne : e <> []).
  { intros E. rewrite E in He. simpl in He. lia. }
  split.
  { rewrite zip_with_length; [exact Hc | now rewrite softmax_length, He]. }
  split; [rewrite length_app; simpl; lia|].
  split.
  { apply Forall_app. split; [exact Hall|]. constructor; [|constructor].
    split; [now rewrite softmax_length|].
    split; [now apply softmax_pos | now apply softmax_sum]. }
  unfold sum_alignments. rewrite fold_left_app. simpl.
  fold (sum_alignments (length memory) (alignment_history s)).
  now rewrite <- Hsum.
Qed.

Lemma invariant_run_from (queries : list Query) (n : nat) (s : State) :
  invariant memory n s ->
  invariant memory (n + length queries)
            (fold_left (step memory energies) queries s).
Proof.
  revert n s. induction queries as [|q queries IH]; intros n s Hs; simpl.
  - now rewrite Nat.add_0_r.
  - replace (n + S (length queries)) with (S n + length queries) by lia.
    apply IH. now apply invariant_step.
Qed.

Lemma history_extends (queries : list Query) (s : State) :
  exists later,
    alignment_history (fold_left (step memory energies) queries s)
    = alignment_history s ++ later.
Proof.
  revert s. induction queries as [|q queries IH]; intros s; simpl.
  - exists []. now rewrite app_nil_r.
  - destruct (IH (step memory energies s q)) as [later Hl].
    rewrite Hl. simpl. rewrite <- app_assoc. eexists. reflexivity.
Qed.

End Run.

End AttentionFacts.

(** C6.  Take the decoder steps [0..t] that issue [queries] (one batch
    item).  Every alignment produced is a probability distribution over the
    [T_in] encoder positions (positive entries that sum to 1, exactly, hence
    within any tolerance), a later step does not change it, and the
    cumulative alignment carried into step [t + 1] is, position by
    position, the sum of the alignments of steps [0..t]. *)
Theorem attention_alignments (Query : Type) (memory : mat)
        (energies : Query -> mat -> vec -> vec) (queries : list Query) :
  0 < length memory ->
  (forall q c, length c = length memory ->
               length (energies q memory c) = length memory) ->
  let s := Attention.run memory energies queries in
  let T_in := length memory in
  length (Attention.alignment_history s) = length queries /\
  (forall t a,
      nth_error (Attention.alignment_history s) t = Some a ->
      length a = T_in /\ Forall (fun x => 0 < x)%R a /\ rsum a = 1%R /\
      forall eps, (0 <= eps)%R -> (Rabs (rsum a - 1) <= eps)%R) /\
  Attention.cumulative s
  = Attention.sum_alignments T_in (Attention.alignment_history s) /\
  (forall i,
      nth i (Attention.cumulative s) 0%R
      = rsum (map (fun a : vec => nth i a 0%R)
                  (Attention.alignment_history s))) /\
  (forall more,
      exists later,
        Attention.alignment_history
          (Attention.run memory energies (queries ++ more))
        = Attention.alignment_history s ++ later).
Proof.
  intros Hpos Hlen s T_in.
  destruct (@AttentionFacts.invariant_run_from Query memory energies Hpos Hlen
              queries 0 _ (AttentionFacts.invariant_zero memory))
    as (Hc & Hn & Hall & Hsum).
  fold (Attention.run memory energies queries) in Hc, Hn, Hall, Hsum.
  fold s in Hc, Hn, Hall, Hsum.
  split; [exact Hn|]. split.
  { intros t a Ha. apply nth_error_In in Ha.
    rewrite Forall_forall in Hall. destruct (Hall a Ha) as (H1 & H2 & H3).
    repeat split; try assumption.
    intros eps Heps. rewrite H3.
    replace (1 - 1)%R with 0%R by lra. now rewrite Rabs_R0. }
  split; [exact Hsum|]. split.
  { intros i. rewrite Hsum. apply AttentionFacts.sum_alignments_nth.
    eapply Forall_impl; [|exact Hall]. intros a Ha. apply Ha. }
  intros more. unfold Attention.run. rewrite fold_left_app.
  apply AttentionFacts.history_extends.
Qed.

Lemma attention_alignments_witness :
  0 < length Example.memory /\
  (forall (q : unit) c,
      length c = length Example.memory ->
      length (Example.energies q Example.memory c) = length Example.memory) /\
  let s := Attention.run Example.memory Example.energies [tt; tt] in
  let T_in := length Example.memory in
  length (Attention.alignment_history s) = length [tt; tt] /\
  (forall t a,
      nth_error (Attention.alignment_history s) t = Some a ->
      length a = T_in /\ Forall (fun x => 0 < x)%R a /\ rsum a = 1%R /\
      forall eps, (0 <= eps)%R -> (Rabs (rsum a - 1) <= eps)%R) /\
  Attention.cumulative s
  = Attention.sum_alignments T_in (Attention.alignment_history s) /\
  (forall i,
      nth i (Attention.cumulative s) 0%R
      = rsum (map (fun a : vec => nth i a 0%R)
                  (Attention.alignment_history s))) /\
  (forall more,
      exists later,
        Attention.alignment_history
          (Attention.run Example.memory Example.energies ([tt; tt] ++ more))
        = Attention.alignment_history s ++ later).
Proof.
  assert (H1 : 0 < length Example.memory) by (simpl; lia).
  assert (H2 : forall (q : unit) c,
             length c = length Example.memory ->
             length (Example.energies q Example.memory c)
             = length Example.memory).
  { intros q c Hc. unfold Example.energies. now rewrite length_map. }
  split; [exact H1|]. split; [exact H2|].
  exact (@attention_alignments unit Example.memory Example.energies [tt; tt]
           H1 H2).
Defined.

(** The first alignment of the example is uniform: the cumulative
    alignment starts at zero, so the three energies are equal. *)
Example example_first_alignment :
  Attention.alignment_history
    (Attention.run Example.memory Example.energies [tt])
  = [[ (exp (- 0) / (exp (- 0) + (exp (- 0) + (exp (- 0) + 0))))%R;
       (exp (- 0) / (exp (- 0) + (exp (- 0) + (exp (- 0) + 0))))%R;
       (exp (- 0) / (exp (- 0) + (exp (- 0) + (exp (- 0) + 0))))%R ]].
Proof. reflexivity. Qed.

(** ** Further properties of [add_loss] *)

Lemma rsum_nonneg (l : vec) : Forall (fun x => 0 <= x)%R l -> (0 <= rsum l)%R.
Proof.
  induction 1 as [|x l Hx _ IH]; simpl; lra.
Qed.

Lemma rsum_zero_all (l : vec) :
  Forall (fun x => 0 <= x)%R l -> rsum l = 0%R -> Forall (fun x => x = 0%R) l.
Proof.
  induction 1 as [|x l Hx Hl IH]; simpl; intros E; [constructor|].
  pose proof (rsum_nonneg Hl). constructor; [lra | apply IH; lra].
Qed.

Lemma rsum_all_zero (l : vec) : Forall (fun x => x = 0%R) l -> rsum l = 0%R.
Proof.
  induction 1 as [|x l Hx _ IH]; simpl; [reflexivity|]. rewrite Hx, IH. lra.
Qed.

Lemma in_entries (N T F n t f : nat) :
  In (n, t, f) (entries N T F) <-> n < N /\ t < T /\ f < F.
Proof.
  unfold entries. rewrite in_flat_map. split.
  - intros (n' & Hn & H). apply in_flat_map in H.
    destruct H as (t' & Ht & H). apply in_map_iff in H.
    destruct H as (f' & E & Hf). injection E as -> -> ->.
    apply in_seq in Hn, Ht, Hf. lia.
  - intros (Hn & Ht & Hf). exists n. split; [apply in_seq; lia|].
    apply in_flat_map. exists t. split; [apply in_seq; lia|].
    apply in_map_iff. exists f. split; [reflexivity | apply in_seq; lia].
Qed.

Lemma tabulate_ext (N T F : nat) (g h : nat * nat * nat -> R) :
  (forall i, In i (entries N T F) -> g i = h i) ->
  tabulate N T F g = tabulate N T F h.
Proof.
  intros E. unfold tabulate.
  apply map_ext_in. intros n Hn. apply map_ext_in. intros t Ht.
  apply map_ext_in. intros f Hf. apply in_seq in Hn, Ht, Hf.
  apply E. apply in_entries. lia.
Qed.

(** Two tensors of one shape with the same entries are equal. *)
Lemma tensor_ext (N T F : nat) (a b : tensor3) :
  has_shape N T F a -> has_shape N T F b ->
  (forall i, In i (entries N T F) -> get a i = get b i) -> a = b.
Proof.
  intros Ha Hb E. rewrite (tabulate_get Ha), (tabulate_get Hb).
  now apply tabulate_ext.
Qed.

Lemma mean_over_nonneg (I : list (nat * nat * nat))
      (g : nat * nat * nat -> R) :
  (forall i, 0 <= g i)%R -> (0 <= mean_over I g)%R.
Proof.
  intros Hg. unfold mean_over.
  assert (H : (0 <= rsum (map g I))%R).
  { apply rsum_nonneg. apply Forall_forall. intros x Hx.
    apply in_map_iff in Hx. destruct Hx as [i [<- _]]. apply Hg. }
  destruct I as [|i I].
  - simpl. unfold Rdiv. rewrite Rinv_0. lra.
  - apply Rmult_le_pos; [exact H|]. left. apply Rinv_0_lt_compat.
    apply lt_0_INR. simpl. lia.
Qed.

Lemma mean_over_zero_iff (I : list (nat * nat * nat))
      (g : nat * nat * nat -> R) :
  I <> [] -> (forall i, 0 <= g i)%R ->
  (mean_over I g = 0%R <-> forall i, In i I -> g i = 0%R).
Proof.
  intros HI Hg. unfold mean_over.
  assert (Hlen : (0 < INR (length I))%R).
  { apply lt_0_INR. destruct I; [contradiction | simpl; lia]. }
  assert (Hnn : Forall (fun x => 0 <= x)%R (map g I)).
  { apply Forall_forall. intros x Hx. apply in_map_iff in Hx.
    destruct Hx as [i [<- _]]. apply Hg. }
  split.
  - intros E i Hi.
    assert (E0 : rsum (map g I) = 0%R).
    { apply (Rmult_eq_reg_r (/ INR (length I))).
      - rewrite Rmult_0_l. exact E.
      - apply Rinv_neq_0_compat. lra. }
    pose proof (rsum_zero_all Hnn E0) as Hall.
    rewrite Forall_forall in Hall. apply Hall. now apply in_map.
  - intros E. rewrite rsum_all_zero; [unfold Rdiv; ring|].
    apply Forall_forall. intros x Hx. apply in_map_iff in Hx.
    destruct Hx as [i [<- Hi]]. now apply E.
Qed.

Lemma entries_nonempty (N T F : nat) :
  0 < N -> 0 < T -> 0 < F -> entries N T F <> [].
Proof.
  intros HN HT HF E.
  assert (H : In (0, 0, 0) (entries N T F)) by (apply in_entries; lia).
  rewrite E in H. exact H.
Qed.

Lemma sq_err_zero (a b : tensor3) (i : nat * nat * nat) :
  sq_err a b i = 0%R <-> get a i = get b i.
Proof.
  unfold sq_err. split.
  - intros E. apply Rsqr_0_uniq in E. lra.
  - intros ->. unfold Rsqr. ring.
Qed.


Lemma mse_index_zero_iff (N T F : nat) (a b : tensor3) :
  has_shape N T F a -> has_shape N T F b -> 0 < N -> 0 < T -> 0 < F ->
  (mean_over (entries N T F) (sq_err a b) = 0%R <-> b = a).
Proof.
  intros Ha Hb HN HT HF.
  rewrite mean_over_zero_iff;
    [|now apply entries_nonempty | intros i; apply Rle_0_sqr].
  split.
  - intros E. apply (tensor_ext Hb Ha). intros i Hi. symmetry.
    apply sq_err_zero. now apply E.
  - intros -> i _. now apply sq_err_zero.
Qed.

(** X1.  The two mean-squared-error terms are never negative, and each is
    zero exactly when the prediction equals the mel targets entry for
    entry. *)
Theorem add_loss_mse_zero_iff (hp : HParams) (all_vars : list Variable_)
        (N T : nat) (self : Initialized) (mt lt : tensor3) :
  loss_ready hp all_vars N T self mt lt ->
  exists L : Losses,
    add_loss hp all_vars self = Some L /\
    (0 <= decoder_loss L)%R /\ (0 <= mel_loss L)%R /\
    (decoder_loss L = 0%R <-> decoder_outputs self = mt) /\
    (mel_loss L = 0%R <-> mel_outputs self = mt).
Proof.
  intros H.
  destruct (add_loss_ready H)
    as (k & w & L & _ & _ & _ & HL & Hd & Hm & _ & _ & _).
  destruct H as [_ _ Smt Sdec Smel _ _ HN HT HM _ _ _].
  exists L. split; [exact HL|]. rewrite Hd, Hm.
  split; [apply mean_over_nonneg; intros i; apply Rle_0_sqr|].
  split; [apply mean_over_nonneg; intros i; apply Rle_0_sqr|].
  split; now apply mse_index_zero_iff.
Qed.

Lemma add_loss_mse_zero_iff_witness :
  loss_ready Example.hp Example.all_vars 1 1 Example.self
             Example.mt Example.lt /\
  exists L : Losses,
    add_loss Example.hp Example.all_vars Example.self = Some L /\
    (0 <= decoder_loss L)%R /\ (0 <= mel_loss L)%R /\
    (decoder_loss L = 0%R <-> decoder_outputs Example.self = Example.mt) /\
    (mel_loss L = 0%R <-> mel_outputs Example.self = Example.mt).
Proof.
  split; [exact example_loss_ready|].
  exact (add_loss_mse_zero_iff example_loss_ready).
Defined.






Lemma Q2R_pos (q : Q) : (0 < q)%Q -> (0 < Q2R q)%R.
Proof.
  intros H. replace 0%R with (Q2R 0) by (unfold Q2R; simpl; lra).
  now apply Qlt_Rlt.
Qed.





(** *** How the priority band weighs the entries *)





(** *** Sample rates at the edges *)

Lemma loss_ready_set_sample_rate (hp : HParams) (all_vars : list Variable_)
      (N T : nat) (self : Initialized) (mt lt : tensor3) (sr : Z) :
  loss_ready hp all_vars N T self mt lt ->
  (0 < sr <= 4000 * Z.of_nat (num_freq hp))%Z ->
  loss_ready (set_sample_rate sr hp) all_vars N T self mt lt.
Proof.
  intros [H1 H2 H3 H4 H5 H6 H7 H8 H9 H10 H11 H12 H13] Hsr.
  constructor; simpl; assumption.
Qed.

(** X5.  When the sample rate is at most 4000 Hz every bin lies below
    2000 Hz: the priority slice is the whole tensor and the linear loss is
    the plain mean absolute error. *)
Theorem add_loss_low_sample_rate (hp : HParams) (all_vars : list Variable_)
        (N T : nat) (self : Initialized) (mt lt : tensor3) :
  loss_ready hp all_vars N T self mt lt ->
  (sample_rate hp <= 4000)%Z ->
  exists L : Losses,
    add_loss hp all_vars self = Some L /\
    linear_loss L
    = mean_over (entries N T (num_freq hp))
                (abs_err lt (linear_outputs self)).
Proof.
  intros H Hlow.
  destruct (add_loss_ready H)
    as (k & w & L & Hk & Hk1 & _ & HL & _ & _ & Hlin & _ & _).
  destruct H as [_ _ _ _ _ _ _ HN HT _ Hsr _ _].
  assert (Ek : k = (4000 * Z.of_nat (num_freq hp) / sample_rate hp)%Z).
  { rewrite (n_priority_freq_closed hp (proj1 Hsr)) in Hk. congruence. }
  assert (HkF : (Z.of_nat (num_freq hp) <= k)%Z).
  { subst k. apply Z.div_le_lower_bound; [lia | nia]. }
  exists L. split; [exact HL|]. rewrite Hlin.
  rewrite low_bins_entries by lia.
  rewrite Nat.min_r by lia. lra.
Qed.

Lemma add_loss_low_sample_rate_witness :
  loss_ready (set_sample_rate 4000 Example.hp) Example.all_vars 1 1
             Example.self Example.mt Example.lt /\
  (sample_rate (set_sample_rate 4000 Example.hp) <= 4000)%Z /\
  exists L : Losses,
    add_loss (set_sample_rate 4000 Example.hp) Example.all_vars Example.self
    = Some L /\
    linear_loss L
    = mean_over (entries 1 1 (num_freq (set_sample_rate 4000 Example.hp)))
                (abs_err Example.lt (linear_outputs Example.self)).
Proof.
  assert (Hsr : (0 < 4000 <= 4000 * Z.of_nat (num_freq Example.hp))%Z)
    by (simpl; lia).
  assert (Hlow : (sample_rate (set_sample_rate 4000 Example.hp) <= 4000)%Z)
    by (simpl; lia).
  pose proof (loss_ready_set_sample_rate example_loss_ready Hsr) as Hready.
  split; [exact Hready|]. split; [exact Hlow|].
  exact (add_loss_low_sample_rate Hready Hlow).
Defined.

Lemma slice_none_empty (x : tensor3) :
  flatten3 (TF.slice_last_axis 0 x) = [].
Proof.
  unfold flatten3, TF.slice_last_axis.
  induction x as [|m x IH]; simpl; [reflexivity|].
  rewrite concat_app, IH, app_nil_r.
  clear. induction m as [|r m IH]; simpl; [reflexivity | exact IH].
Qed.

(** X6.  When the sample rate exceeds [4000 * num_freq], [n_priority_freq]
    is 0: the priority slice is empty, its mean is NaN, and [add_loss]
    gives no real loss, whatever the tensors are. *)
Theorem add_loss_empty_priority_band (hp : HParams)
        (all_vars : list Variable_) (self : Initialized) :
  (4000 * Z.of_nat (num_freq hp) < sample_rate hp)%Z ->
  n_priority_freq hp = Some 0%Z /\
  (forall targets outputs, compute_linear_loss hp targets outputs = None) /\
  add_loss hp all_vars self = None.
Proof.
  intros Hsr.
  assert (Hk : n_priority_freq hp = Some 0%Z).
  { rewrite n_priority_freq_closed by lia. f_equal.
    apply Z.div_small. lia. }
  assert (Hlin : forall targets outputs,
             compute_linear_loss hp targets outputs = None).
  { intros targets outputs. unfold compute_linear_loss. rewrite Hk.
    destruct (TF.tf_sub targets outputs) as [d|]; [|reflexivity].
    assert (E : TF.reduce_mean (TF.slice_last_axis 0 (TF.tf_abs d)) = None).
    { unfold TF.reduce_mean, num_elements. now rewrite slice_none_empty. }
    rewrite E. now destruct (TF.reduce_mean (TF.tf_abs d)). }
  split; [exact Hk|]. split; [exact Hlin|].
  unfold add_loss.
  destruct (mel_targets self) as [mt|]; [|reflexivity].
  destruct (linear_targets self) as [lt|]; [|reflexivity].
  rewrite Hlin.
  destruct (TF.mean_squared_error mt (decoder_outputs self));
    [|reflexivity].
  now destruct (TF.mean_squared_error mt (mel_outputs self)).
Qed.

Lemma add_loss_empty_priority_band_witness :
  (4000 * Z.of_nat (num_freq (set_sample_rate 20000 Example.hp))
   < sample_rate (set_sample_rate 20000 Example.hp))%Z /\
  n_priority_freq (set_sample_rate 20000 Example.hp) = Some 0%Z /\
  (forall targets outputs,
      compute_linear_loss (set_sample_rate 20000 Example.hp) targets outputs
      = None) /\
  add_loss (set_sample_rate 20000 Example.hp) Example.all_vars Example.self
  = None.
Proof.
  assert (H : (4000 * Z.of_nat (num_freq (set_sample_rate 20000 Example.hp))
               < sample_rate (set_sample_rate 20000 Example.hp))%Z)
    by (simpl; lia).
  split; [exact H|].
  exact (@add_loss_empty_priority_band (set_sample_rate 20000 Example.hp)
           Example.all_vars Example.self H).
Defined.



(** *** When [add_loss] has nothing to work on *)

(** [initialize] keeps its arguments in the fields of the model. *)
Lemma initialize_fields (net : Network) (helpers : Helpers) (hp : HParams)
      (ids : list (list Z)) (lengths : list Z)
      (mel lin : option tensor3) (self : Initialized) :
  initialize net helpers hp ids lengths mel lin = Some self ->
  inputs self = ids /\ input_lengths self = lengths /\
  mel_targets self = mel /\ linear_targets self = lin.
Proof.
  unfold initialize. intros H.
  destruct (make_helper helpers hp ids mel lin) as [h|]; [|discriminate].
  destruct (dynamic_decode _ _ _) as [multi final].
  destruct (reshape_infer multi _ _) as [dout|]; [|discriminate].
  destruct (tf_add dout _) as [mout|]; [|discriminate].
  injection H as <-. simpl. auto.
Qed.

(** X8.  [add_loss] needs both targets: on a model that [initialize] built
    with [mel_targets] or [linear_targets] left out (inference mode, or a
    call with the linear targets only) it fails, whatever the
    hyper-parameters and variables. *)
Theorem add_loss_needs_targets (net : Network) (helpers : Helpers)
        (hp : HParams) (all_vars : list Variable_)
        (inputs : list (list Z)) (input_lengths : list Z)
        (mel lin : option tensor3) (self : Initialized) :
  initialize net helpers hp inputs input_lengths mel lin = Some self ->
  mel = None \/ lin = None ->
  add_loss hp all_vars self = None.
Proof.
  intros Hinit Hnone.
  destruct (initialize_fields _ _ _ _ _ _ _ Hinit) as (_ & _ & Hm & Hl).
  unfold add_loss. rewrite Hm, Hl.
  destruct Hnone as [-> | ->]; [reflexivity|].
  now destruct mel.
Qed.

Lemma example_inference_state :
  initialize Example.net Example.helpers Example.hp Example.text
             Example.text_lengths None None
  = Some inference_state.
Proof. reflexivity. Defined.

Lemma add_loss_needs_targets_witness :
  initialize Example.net Example.helpers Example.hp Example.text
             Example.text_lengths None None
  = Some inference_state /\
  (@None tensor3 = None \/ @None tensor3 = None) /\
  add_loss Example.hp Example.all_vars inference_state = None.
Proof.
  split; [exact example_inference_state|].
  split; [left; reflexivity|].
  exact (@add_loss_needs_targets Example.net Example.helpers Example.hp
           Example.all_vars Example.text Example.text_lengths None None
           inference_state example_inference_state (or_introl eq_refl)).
Defined.

(** X9.  The regularization term needs a weight: when every trainable
    variable has ["bias"] or ["Bias"] in its name (or there is no variable
    at all), [tf.add_n] gets an empty list and [add_loss] fails. *)
Theorem add_loss_needs_weights (hp : HParams) (all_vars : list Variable_)
        (self : Initialized) :
  (forall v, In v all_vars -> is_bias v = true) ->
  compute_regularization_loss hp all_vars = None /\
  add_loss hp all_vars self = None.
Proof.
  intros Hb.
  assert (Hw : filter (fun v => negb (is_bias v)) all_vars = []).
  { induction all_vars as [|v l IH]; simpl; [reflexivity|].
    rewrite (Hb v) by now left. simpl. apply IH.
    intros u Hu. apply Hb. now right. }
  assert (Hreg : compute_regularization_loss hp all_vars = None).
  { unfold compute_regularization_loss. rewrite Hw. simpl.
    now destruct (reg_weight hp). }
  split; [exact Hreg|]. unfold add_loss. rewrite Hreg.
  destruct (mel_targets self); [|reflexivity].
  destruct (linear_targets self); [|reflexivity].
  destruct (TF.mean_squared_error _ (decoder_outputs self)); [|reflexivity].
  destruct (TF.mean_squared_error _ (mel_outputs self)); [|reflexivity].
  now destruct (compute_linear_loss hp _ _).
Qed.

Lemma add_loss_needs_weights_witness :
  (forall v, In v bias_vars -> is_bias v = true) /\
  compute_regularization_loss Example.hp bias_vars = None /\
  add_loss Example.hp bias_vars Example.self = None.
Proof.
  assert (H : forall v, In v bias_vars -> is_bias v = true).
  { intros v [<- | [<- | []]]; reflexivity. }
  split; [exact H|].
  exact (@add_loss_needs_weights Example.hp bias_vars Example.self H).
Defined.

(** X10.  The two divisions of [add_loss] are unguarded: with
    [sample_rate = 0] or [max_abs_value = 0] Python raises
    [ZeroDivisionError] and there is no loss. *)
Theorem add_loss_zero_division (hp : HParams) (all_vars : list Variable_)
        (self : Initialized) :
  sample_rate hp = 0%Z \/ (max_abs_value hp == 0)%Q ->
  add_loss hp all_vars self = None.
Proof.
  intros Hz. unfold add_loss.
  destruct (mel_targets self) as [mt|]; [|reflexivity].
  destruct (linear_targets self) as [lt|]; [|reflexivity].
  destruct (TF.mean_squared_error mt (decoder_outputs self));
    [|reflexivity].
  destruct (TF.mean_squared_error mt (mel_outputs self)); [|reflexivity].
  destruct Hz as [Hsr | Hm].
  - assert (E : compute_linear_loss hp lt (linear_outputs self) = None).
    { unfold compute_linear_loss, n_priority_freq. rewrite Hsr. simpl.
      now destruct (TF.tf_sub lt (linear_outputs self)). }
    now rewrite E.
  - assert (E : compute_regularization_loss hp all_vars = None).
    { unfold compute_regularization_loss, reg_weight, reg_weight_scaler.
      assert (Hd : Qeq_bool (if symmetric_mels hp
                             then (2 * max_abs_value hp)%Q
                             else max_abs_value hp) 0 = true).
      { apply Qeq_bool_iff. destruct (symmetric_mels hp); [|exact Hm].
        rewrite Hm. reflexivity. }
      now rewrite Hd. }
    rewrite E. now destruct (compute_linear_loss hp lt (linear_outputs self)).
Qed.

Lemma add_loss_zero_division_witness :
  (sample_rate (set_sample_rate 0 Example.hp) = 0%Z \/
   (max_abs_value (set_sample_rate 0 Example.hp) == 0)%Q) /\
  add_loss (set_sample_rate 0 Example.hp) Example.all_vars Example.self
  = None.
Proof.
  split; [left; reflexivity|].
  exact (@add_loss_zero_division (set_sample_rate 0 Example.hp)
           Example.all_vars Example.self (or_introl eq_refl)).
Defined.

(** ** Further properties of [initialize] *)

Section StopLoop.

Variable State : Type.
Variable decoder : BasicDecoder State.
Variable maximum_iterations N k : nat.
Variable stop : nat -> bool.

Hypothesis batch_pos : 0 < N.
Hypothesis cell_rows :
  forall inp st, length inp = N -> length (fst (cell decoder inp st)) = N.
Hypothesis feeds : helper_feeds N (helper decoder).
Hypothesis flags :
  forall time outputs,
    length outputs = N ->
    fst (helper_next_inputs (helper decoder) time outputs)
    = repeat (stop (S time)) N.
Hypothesis not_before : forall t, 0 < t < k -> stop t = false.
Hypothesis at_k : k = maximum_iterations \/ (0 < k /\ stop k = true).
Hypothesis k_le : k <= maximum_iterations.


Hypothesis starts_unfinished :
  fst (helper_initialize (helper decoder)) = repeat false N.


End StopLoop.




(** X12.  In inference mode [mel_targets] is not used: with
    [linear_targets] left out, two calls that differ in [mel_targets] only
    give the same decoder, mel and linear outputs and the same
    alignments. *)
Theorem initialize_inference_ignores_mel (net : Network) (helpers : Helpers)
        (hp : HParams) (ids : list (list Z)) (lengths : list Z)
        (mel mel' : option tensor3) :
  option_map (fun self => (decoder_outputs self, mel_outputs self,
                           linear_outputs self, alignments self))
             (initialize net helpers hp ids lengths mel None)
  = option_map (fun self => (decoder_outputs self, mel_outputs self,
                             linear_outputs self, alignments self))
               (initialize net helpers hp ids lengths mel' None).
Proof.
  unfold initialize, make_helper. simpl.
  destruct (dynamic_decode _ _ _) as [multi final].
  destruct (reshape_infer multi _ _) as [dout|]; [|reflexivity].
  destruct (tf_add dout _) as [mout|]; reflexivity.
Qed.

(** X13.  The linear targets never enter the network: in training mode two
    calls that differ in the values of [linear_targets] only give the same
    decoder, mel and linear outputs and the same alignments. *)
Theorem initialize_ignores_linear_values (net : Network) (helpers : Helpers)
        (hp : HParams) (ids : list (list Z)) (lengths : list Z)
        (mel : option tensor3) (lt lt' : tensor3) :
  option_map (fun self => (decoder_outputs self, mel_outputs self,
                           linear_outputs self, alignments self))
             (initialize net helpers hp ids lengths mel (Some lt))
  = option_map (fun self => (decoder_outputs self, mel_outputs self,
                             linear_outputs self, alignments self))
               (initialize net helpers hp ids lengths mel (Some lt')).
Proof.
  unfold initialize, make_helper. simpl.
  destruct (TacoTrainingHelper helpers ids mel _ _) as [h|]; [|reflexivity].
  destruct (dynamic_decode _ _ _) as [multi final].
  destruct (reshape_infer multi _ _) as [dout|]; [|reflexivity].
  destruct (tf_add dout _) as [mout|]; reflexivity.
Qed.

(** *** The layout of the decoder outputs *)

Lemma nth_concat_uniform {A : Type} (l : list (list A)) (w i j : nat)
      (d : A) :
  Forall (fun r => length r = w) l -> j < w -> i < length l ->
  nth (i * w + j) (concat l) d = nth j (nth i l []) d.
Proof.
  revert i. induction l as [|r l IH]; intros i Hall Hj Hi; simpl in *;
    [lia|].
  inversion Hall as [|? ? Hr Hl]; subst.
  destruct i as [|i]; simpl.
  - apply app_nth1. lia.
  - rewrite app_nth2 by lia.
    replace (length r + i * length r + j - length r)
      with (i * length r + j) by lia.
    apply IH; [exact Hl | exact Hj | lia].
Qed.

Lemma list_sum_repeat (a c : nat) : list_sum (repeat a c) = c * a.
Proof.
  induction c as [|c IH]; simpl; [reflexivity|]. now rewrite IH.
Qed.

Lemma get_flatten (N S D : nat) (x : tensor3) (n s d : nat) :
  has_shape N S D x -> n < N -> s < S -> d < D ->
  nth ((n * S + s) * D + d) (flatten3 x) 0%R = get x (n, s, d).
Proof.
  intros [Hlen Hall] Hn Hs Hd. unfold flatten3, get.
  rewrite Forall_forall in Hall.
  rewrite nth_concat_uniform with (w := D); [| |exact Hd|].
  - f_equal. apply nth_concat_uniform; [|exact Hs|lia].
    apply Forall_forall. intros m Hm. apply (Hall m Hm).
  - apply Forall_forall. intros r Hr. apply in_concat in Hr.
    destruct Hr as (m & Hm & Hr). destruct (Hall m Hm) as [_ HD].
    rewrite Forall_forall in HD. now apply HD.
  - rewrite length_concat.
    assert (E : map (@length (list R)) x = repeat S (length x)).
    { clear Hlen Hn. induction x as [|m x IH]; simpl; [reflexivity|].
      rewrite (proj1 (Hall m (or_introl eq_refl))). f_equal.
      apply IH. intros m' Hm'. apply Hall. now right. }
    rewrite E. clear E.
    rewrite list_sum_repeat. nia.
Qed.

Lemma nth_map_seq {A : Type} (g : nat -> A) (n i : nat) (d : A) :
  i < n -> nth i (map g (seq 0 n)) d = g i.
Proof.
  intros Hi. rewrite (nth_indep _ d (g 0)) by (now rewrite length_map, length_seq).
  rewrite map_nth. f_equal. rewrite seq_nth; lia.
Qed.

Lemma get_tabulate (N T F : nat) (g : nat * nat * nat -> R) (n t f : nat) :
  n < N -> t < T -> f < F -> get (tabulate N T F g) (n, t, f) = g (n, t, f).
Proof.
  intros Hn Ht Hf. unfold get, tabulate.
  rewrite (nth_map_seq _ [] Hn), (nth_map_seq _ [] Ht).
  exact (nth_map_seq (fun f0 => g (n, t, f0)) 0%R Hf).
Qed.

(** [tf.reshape(x, [N, -1, M])] on step outputs of width [M * r]: frame
    [j] of step [s] is the [j]-th run of [M] entries of that step. *)
Lemma reshape_layout (N S M r : nat) (x : tensor3) :
  has_shape N S (M * r) x -> 0 < N -> 0 < M ->
  exists y,
    reshape_infer x N M = Some y /\
    forall n s j m,
      n < N -> s < S -> j < r -> m < M ->
      get y (n, s * r + j, m) = get x (n, s, j * M + m).
Proof.
  intros Hx HN HM. unfold reshape_infer.
  rewrite (num_elements_shape Hx).
  assert (Hnm : N * M <> 0) by nia.
  destruct (Nat.eqb_spec (N * M) 0) as [E0|E0]; [contradiction|].
  replace (N * S * (M * r)) with (S * r * (N * M)) by ring.
  rewrite Nat.Div0.mod_mul, Nat.div_mul by exact Hnm.
  rewrite Nat.eqb_refl.
  eexists. split; [reflexivity|].
  intros n s j m Hn Hs Hj Hm.
  rewrite get_tabulate; [|exact Hn|nia|exact Hm].
  replace ((n * (S * r) + (s * r + j)) * M + m)
    with ((n * S + s) * (M * r) + (j * M + m)) by ring.
  apply (get_flatten Hx); [exact Hn | exact Hs | nia].
Qed.

Lemma initialize_decoder_outputs (net : Network) (helpers : Helpers)
      (hp : HParams) (ids : list (list Z)) (lengths : list Z)
      (mel lin : option tensor3) (h : Helper) (self : Initialized) :
  make_helper helpers hp ids mel lin = Some h ->
  initialize net helpers hp ids lengths mel lin = Some self ->
  reshape_infer
    (fst (dynamic_decode (decoder_of net hp ids lengths (is_training lin) h)
                         (max_iters hp) (length ids)))
    (length ids) (num_mels hp)
  = Some (decoder_outputs self).
Proof.
  intros Hh. unfold initialize. rewrite Hh.
  fold (decoder_of net hp ids lengths (is_training lin) h).
  destruct (dynamic_decode _ _ _) as [multi final]. simpl.
  destruct (reshape_infer multi _ _) as [dout|]; [|discriminate].
  destruct (tf_add dout _) as [mout|]; [|discriminate].
  intros H. injection H as <-. reflexivity.
Qed.

Lemma get_dynamic_decode (State : Type) (decoder : BasicDecoder State)
      (maximum_iterations N : nat) (n s d : nat) :
  n < N ->
  s < length (fst (dynamic_decode_steps decoder maximum_iterations)) ->
  get (fst (dynamic_decode decoder maximum_iterations N)) (n, s, d)
  = nth d (nth n (nth s (fst (dynamic_decode_steps decoder
                                                   maximum_iterations)) [])
                 []) 0%R.
Proof.
  intros Hn Hs. unfold dynamic_decode, get.
  destruct (dynamic_decode_steps decoder maximum_iterations) as [outs st].
  simpl in *. rewrite (nth_map_seq _ [] Hn).
  rewrite (nth_indep _ [] ((fun o : mat => nth n o []) []))
    by (now rewrite length_map).
  now rewrite (map_nth (fun o : mat => nth n o [])).
Qed.

(** X14.  The reshape gives one frame per entry: frame [s * r + j] of
    [decoder_outputs] (with [r = outputs_per_step]) is the [j]-th run of
    [num_mels] entries of the output that the decoder cell emitted at step
    [s], for every batch item. *)
Theorem initialize_frame_layout (net : Network) (helpers : Helpers)
        (hp : HParams) (ids : list (list Z)) (lengths : list Z)
        (mel lin : option tensor3) (h : Helper) :
  0 < length ids -> 0 < num_mels hp ->
  network_contract net hp (length ids) ->
  make_helper helpers hp ids mel lin = Some h ->
  helper_feeds (length ids) h ->
  exists self : Initialized,
    initialize net helpers hp ids lengths mel lin = Some self /\
    let outs :=
      fst (dynamic_decode_steps
             (decoder_of net hp ids lengths (is_training lin) h)
             (max_iters hp)) in
    forall n s j m,
      n < length ids -> s < length outs ->
      j < outputs_per_step hp -> m < num_mels hp ->
      get (decoder_outputs self) (n, s * outputs_per_step hp + j, m)
      = nth (j * num_mels hp + m) (nth n (nth s outs []) []) 0%R.
Proof.
  intros HN HM Hnet Hh Hfeeds.
  destruct (@initialize_shapes net helpers hp ids lengths mel lin
              h HN HM Hnet Hh Hfeeds) as (self & Hself & _).
  exists self. split; [exact Hself|]. intros outs n s j m Hn Hs Hj Hm.
  set (dec := decoder_of net hp ids lengths (is_training lin) h) in *.
  assert (Hout : Forall (fun o : mat =>
                           length o = length ids /\
                           Forall (fun r : vec =>
                                     length r
                                     = num_mels hp * outputs_per_step hp) o)
                        (fst (dynamic_decode_steps dec (max_iters hp)))).
  { apply dynamic_decode_steps_outputs with (N := length ids).
    - intros inp st Hin. apply (cell_shape Hnet). exact Hin.
    - intros o Ho. apply Ho.
    - exact Hfeeds. }
  pose proof (dynamic_decode_shape dec (max_iters hp) Hout) as Hshape.
  destruct (@reshape_layout _ _ (num_mels hp) (outputs_per_step hp) _
              Hshape HN HM) as (y & Hy & Hlayout).
  pose proof (initialize_decoder_outputs net helpers hp ids lengths mel lin
                Hh Hself) as Hre.
  fold dec in Hre. rewrite Hy in Hre. injection Hre as <-.
  rewrite (Hlayout n s j m Hn Hs Hj Hm).
  now apply get_dynamic_decode.
Qed.

Lemma initialize_frame_layout_witness :
  0 < length Example.text /\ 0 < num_mels Example.hp /\
  network_contract Example.net Example.hp (length Example.text) /\
  make_helper Example.helpers Example.hp Example.text None None
  = Some (TacoTestHelper Example.helpers (length Example.text)
                         (num_mels Example.hp)
                         (outputs_per_step Example.hp)) /\
  helper_feeds (length Example.text)
               (TacoTestHelper Example.helpers (length Example.text)
                               (num_mels Example.hp)
                               (outputs_per_step Example.hp)) /\
  exists self : Initialized,
    initialize Example.net Example.helpers Example.hp Example.text
               Example.text_lengths None None = Some self /\
    let outs :=
      fst (dynamic_decode_steps
             (decoder_of Example.net Example.hp Example.text
                         Example.text_lengths (is_training None)
                         (TacoTestHelper Example.helpers
                                         (length Example.text)
                                         (num_mels Example.hp)
                                         (outputs_per_step Example.hp)))
             (max_iters Example.hp)) in
    forall n s j m,
      n < length Example.text -> s < length outs ->
      j < outputs_per_step Example.hp -> m < num_mels Example.hp ->
      get (decoder_outputs self)
          (n, s * outputs_per_step Example.hp + j, m)
      = nth (j * num_mels Example.hp + m) (nth n (nth s outs []) []) 0%R.
Proof.
  assert (H1 : 0 < length Example.text) by (simpl; lia).
  assert (H2 : 0 < num_mels Example.hp) by (simpl; lia).
  split; [exact H1|]. split; [exact H2|].
  split; [exact (example_contract _)|].
  split; [reflexivity|].
  split; [exact (test_helper_feeds _ _ _ _)|].
  exact (@initialize_frame_layout Example.net Example.helpers Example.hp
           Example.text Example.text_lengths None None _
           H1 H2 (example_contract _) eq_refl (test_helper_feeds _ _ _ _)).
Defined.

(** ** Further properties of [add_optimizer] *)

Lemma Rpower_half_nat (k : nat) : Rpower 0.5 (INR k) = (/ 2 ^ k)%R.
Proof.
  rewrite Rpower_pow by lra. rewrite <- pow_inv. f_equal. lra.
Qed.

(** X15.  With a positive initial learning rate the learning rate is
    positive at every step and at most the initial rate from step 0 on;
    after [k] whole half-lives it is the initial rate divided by [2 ^ k]. *)
Theorem add_optimizer_half_lives (hp : HParams)
        (compute_gradients : R -> list (option vec * Variable_))
        (self : Losses) (global_step : Z) (k : nat) :
  (0 < learning_rate_decay_halflife hp)%Z ->
  (0 < initial_learning_rate hp)%Q ->
  compute_gradients (loss self) <> [] ->
  (exists o : Optimized,
      add_optimizer hp compute_gradients self global_step = Some o /\
      (0 < learning_rate o)%R /\
      ((0 <= global_step)%Z ->
       (learning_rate o <= Q2R (initial_learning_rate hp))%R)) /\
  (exists o : Optimized,
      add_optimizer hp compute_gradients self
                    (Z.of_nat k * learning_rate_decay_halflife hp)
      = Some o /\
      learning_rate o = (Q2R (initial_learning_rate hp) / 2 ^ k)%R).
Proof.
  intros Hh Hi Hg.
  assert (Hh0 : learning_rate_decay_halflife hp <> 0%Z) by lia.
  assert (HhR : (0 < IZR (learning_rate_decay_halflife hp))%R)
    by (now apply IZR_lt).
  pose proof (Q2R_pos Hi) as HiR.
  split.
  - destruct (add_optimizer_fields hp compute_gradients self global_step
                                   Hh0 Hg) as (o & Ho & Hlr & _).
    exists o. split; [exact Ho|]. rewrite Hlr. split.
    + apply Rmult_lt_0_compat; [exact HiR | apply Rpower_half_pos].
    + intros Hstep.
      assert (Hle : (Rpower 0.5 (IZR global_step
                                 / IZR (learning_rate_decay_halflife hp))
                     <= Rpower 0.5 0)%R).
      { apply Rpower_half_decreasing.
        apply Rmult_le_pos; [now apply IZR_le|].
        left. now apply Rinv_0_lt_compat. }
      rewrite Rpower_O in Hle by lra. nra.
  - destruct (add_optimizer_fields hp compute_gradients self
                (Z.of_nat k * learning_rate_decay_halflife hp) Hh0 Hg)
      as (o & Ho & Hlr & _).
    exists o. split; [exact Ho|]. rewrite Hlr, mult_IZR, <- INR_IZR_INZ.
    replace (INR k * IZR (learning_rate_decay_halflife hp)
             / IZR (learning_rate_decay_halflife hp))%R
      with (INR k) by (field; lra).
    rewrite Rpower_half_nat. reflexivity.
Qed.

Lemma add_optimizer_half_lives_witness :
  (0 < learning_rate_decay_halflife Example.hp)%Z /\
  (0 < initial_learning_rate Example.hp)%Q /\
  Example.compute_gradients (loss Example.losses) <> [] /\
  (exists o : Optimized,
      add_optimizer Example.hp Example.compute_gradients Example.losses 7
      = Some o /\
      (0 < learning_rate o)%R /\
      ((0 <= 7)%Z ->
       (learning_rate o <= Q2R (initial_learning_rate Example.hp))%R)) /\
  (exists o : Optimized,
      add_optimizer Example.hp Example.compute_gradients Example.losses
                    (Z.of_nat 3 * learning_rate_decay_halflife Example.hp)
      = Some o /\
      learning_rate o = (Q2R (initial_learning_rate Example.hp) / 2 ^ 3)%R).
Proof.
  assert (H1 : (0 < learning_rate_decay_halflife Example.hp)%Z)
    by reflexivity.
  assert (H2 : (0 < initial_learning_rate Example.hp)%Q) by reflexivity.
  split; [exact H1|]. split; [exact H2|].
  split; [exact example_has_gradients|].
  exact (@add_optimizer_half_lives Example.hp Example.compute_gradients
           Example.losses 7 3 H1 H2 example_has_gradients).
Defined.

Lemma clip_common_factor (l : list (option vec)) :
  let c := (1 / Rmax (global_norm l) 1)%R in
  (0 < c <= 1)%R /\
  fst (clip_by_global_norm l 1) = map (option_map (map (fun x => c * x)%R)) l.
Proof.
  intros c.
  assert (Hmax : (1 <= Rmax (global_norm l) 1)%R) by apply Rmax_r.
  split.
  - unfold c. split.
    + apply Rdiv_lt_0_compat; lra.
    + apply (Rmult_le_reg_r (Rmax (global_norm l) 1)); [lra|].
      unfold Rdiv. rewrite Rmult_assoc, Rinv_l by lra. lra.
  - unfold clip_by_global_norm. simpl.
    apply map_ext. intros t. destruct t as [v|]; simpl; [|reflexivity].
    f_equal. apply map_ext. intros x. unfold c. field. lra.
Qed.

(** X16.  Clipping rescales, it never redirects: the gradients applied by
    [optimize] are the computed gradients, all multiplied by one common
    factor [1 / max(global_norm, 1)], which lies in (0, 1]; a variable
    without gradient ([None]) is passed on without gradient. *)
Theorem add_optimizer_common_factor (hp : HParams)
        (compute_gradients : R -> list (option vec * Variable_))
        (self : Losses) (global_step : Z) :
  learning_rate_decay_halflife hp <> 0%Z ->
  compute_gradients (loss self) <> [] ->
  exists (o : Optimized) (c : R),
    add_optimizer hp compute_gradients self global_step = Some o /\
    c = (1 / Rmax (global_norm (gradients o)) 1)%R /\
    (0 < c <= 1)%R /\
    map fst (opt_grads_and_vars (optimize o))
    = map (option_map (map (fun x => c * x)%R)) (gradients o).
Proof.
  intros Hh Hg.
  destruct (add_optimizer_fields hp compute_gradients self global_step Hh Hg)
    as (o & Ho & _ & _ & Hfst & _).
  destruct (clip_common_factor (gradients o)) as [Hc Hclip].
  exists o, (1 / Rmax (global_norm (gradients o)) 1)%R.
  split; [exact Ho|]. split; [reflexivity|]. split; [exact Hc|].
  rewrite Hfst. exact Hclip.
Qed.

Lemma add_optimizer_common_factor_witness :
  learning_rate_decay_halflife Example.hp <> 0%Z /\
  Example.compute_gradients (loss Example.losses) <> [] /\
  exists (o : Optimized) (c : R),
    add_optimizer Example.hp Example.compute_gradients Example.losses 7
    = Some o /\
    c = (1 / Rmax (global_norm (gradients o)) 1)%R /\
    (0 < c <= 1)%R /\
    map fst (opt_grads_and_vars (optimize o))
    = map (option_map (map (fun x => c * x)%R)) (gradients o).
Proof.
  split; [exact example_halflife_nonzero|].
  split; [exact example_has_gradients|].
  exact (@add_optimizer_common_factor Example.hp Example.compute_gradients
           Example.losses 7 example_halflife_nonzero example_has_gradients).
Defined.

(** ** Shapes in every mode, and the empty batch *)

(** X17.  In training and in inference alike, whatever the helper does,
    the decoder, mel and linear outputs share the batch size and one time
    dimension [T_out], which is a multiple of [outputs_per_step] and at
    most [max_iters * outputs_per_step]. *)
Theorem initialize_common_length (net : Network) (helpers : Helpers)
        (hp : HParams) (ids : list (list Z)) (lengths : list Z)
        (mel lin : option tensor3) (h : Helper) :
  0 < length ids -> 0 < num_mels hp ->
  network_contract net hp (length ids) ->
  make_helper helpers hp ids mel lin = Some h ->
  helper_feeds (length ids) h ->
  exists (self : Initialized) (steps : nat),
    initialize net helpers hp ids lengths mel lin = Some self /\
    let T_out := steps * outputs_per_step hp in
    has_shape (length ids) T_out (num_mels hp) (decoder_outputs self) /\
    has_shape (length ids) T_out (num_mels hp) (mel_outputs self) /\
    has_shape (length ids) T_out (num_freq hp) (linear_outputs self) /\
    T_out <= max_iters hp * outputs_per_step hp.
Proof.
  intros HN HM Hnet Hh Hfeeds.
  destruct (@initialize_shapes net helpers hp ids lengths mel lin
              h HN HM Hnet Hh Hfeeds)
    as (self & Hself & Hsteps & Hdec & Hmel & Hlin & _).
  eexists self, _. split; [exact Hself|]. simpl.
  split; [exact Hdec|]. split; [exact Hmel|]. split; [exact Hlin|].
  now apply Nat.mul_le_mono_r.
Qed.

Lemma initialize_common_length_witness :
  0 < length Example.text /\ 0 < num_mels Example.hp /\
  network_contract Example.net Example.hp (length Example.text) /\
  make_helper Example.helpers Example.hp Example.text None None
  = Some (TacoTestHelper Example.helpers (length Example.text)
                         (num_mels Example.hp)
                         (outputs_per_step Example.hp)) /\
  helper_feeds (length Example.text)
               (TacoTestHelper Example.helpers (length Example.text)
                               (num_mels Example.hp)
                               (outputs_per_step Example.hp)) /\
  exists (self : Initialized) (steps : nat),
    initialize Example.net Example.helpers Example.hp Example.text
               Example.text_lengths None None = Some self /\
    let T_out := steps * outputs_per_step Example.hp in
    has_shape (length Example.text) T_out (num_mels Example.hp)
              (decoder_outputs self) /\
    has_shape (length Example.text) T_out (num_mels Example.hp)
              (mel_outputs self) /\
    has_shape (length Example.text) T_out (num_freq Example.hp)
              (linear_outputs self) /\
    T_out <= max_iters Example.hp * outputs_per_step Example.hp.
Proof.
  assert (H1 : 0 < length Example.text) by (simpl; lia).
  assert (H2 : 0 < num_mels Example.hp) by (simpl; lia).
  split; [exact H1|]. split; [exact H2|].
  split; [exact (example_contract _)|].
  split; [reflexivity|].
  split; [exact (test_helper_feeds _ _ _ _)|].
  exact (@initialize_common_length Example.net Example.helpers Example.hp
           Example.text Example.text_lengths None None _
           H1 H2 (example_contract _) eq_refl (test_helper_feeds _ _ _ _)).
Defined.


